(** * PYGDS: GPUDirect Storage session (pygds_lib.py)

    A shallow embedding of the [PYGDS] class: the session object, its
    methods and the calls they make to the CUDA binding, to libcufile and
    to the operating system.  Every external call is logged in a trace, in
    the order the program makes it; what the outside world answers is given
    by an environment.  Python exceptions are results of their own. *)

From Stdlib Require Import ZArith List String QArith Bool Lia.
Import ListNotations.
Open Scope string_scope.
Open Scope list_scope.
Open Scope Z_scope.

(** ** ctypes structures *)

(** [class CUfileError(ctypes.Structure)]. *)
Record CUfileError := mkCUfileError { err : Z; cu_err : Z }.

(** [class CUfileDescr(ctypes.Structure)]; the union [_DescrUnion] has the
    single member [fd], so [handle] is that member. *)
Record CUfileDescr := mkCUfileDescr { type_ : Z; handle_fd : Z }.

(** ** Python values of the session attributes

    An attribute that holds a handle is either [None] or an object that
    wraps an integer: a [CUdevice], [CUcontext] or [CUdeviceptr] of the CUDA
    binding, a [ctypes.c_void_p] (0 is NULL) or a plain [int]. *)
Definition pyval := option Z.

(** The session object: the attributes [__init__] assigns. *)
Record PYGDS := mkPYGDS {
  buffer_size : Z;
  pattern_byte : Z;
  libcufile : bool;
  device : pyval;
  ctx : pyval;
  dptr_w : pyval;
  dptr_r : pyval;
  hptr : pyval;
  cf_handle : pyval;
  fd : pyval
}.

(** ** Exceptions *)

(** The text of a [RuntimeError], kept structured instead of formatted. *)
Inductive ErrMsg :=
| MsgCuda (msg : string) (e : Z)             (* f"{msg} (CUDA err={err})" *)
| MsgCuFile (name : string) (e ce : Z)       (* f"{name} failed (cuFile err=.., cuda_err=..)" *)
| MsgWriteReturned (n : Z)                   (* f"cuFileWrite returned {n}" *)
| MsgReadReturned (n : Z)                    (* f"cuFileRead returned {n}" *)
| MsgVerificationFailed.                     (* "Verification FAILED: data mismatch!" *)

Inductive Exn :=
| RuntimeError (m : ErrMsg)
| OSError (errno : Z)
| TypeError
| ValueError
| OverflowError
| ZeroDivisionError.

Inductive Res (A : Type) :=
| Ok (a : A)
| Raise (e : Exn).
Arguments Ok {A} a.
Arguments Raise {A} e.

(** ** External calls *)

(** What [print] is given, before formatting. *)
Inductive PrintLine :=
| LineWrite (mb ms bw : Q)
| LineRead (mb ms bw : Q)
| LinePassed (pattern : Z).

(** One constructor per external function the class calls, with the
    arguments of the call. *)
Inductive Call :=
| cuInit (flags : Z)
| cuDeviceGet (ordinal : Z)
| cuCtxCreate (flags : Z) (dev : pyval)
| CDLL (name : string)
| cuFileDriverOpen
| cuMemAlloc (bytesize : Z)
| cuMemsetD8 (dst : pyval) (uc : Z) (n : Z)
| cuFileBufRegister (ptr : Z) (size : Z) (flags : Z)
| os_open (path : string) (flags : Z) (mode : Z)
| cuFileHandleRegister (descr : CUfileDescr)
| perf_counter
| cuFileWrite (fh : pyval) (ptr : Z) (size : Z) (file_offset : Z) (device_offset : Z)
| cuFileRead (fh : pyval) (ptr : Z) (size : Z) (file_offset : Z) (device_offset : Z)
| cuMemAllocHost (bytesize : Z)
| cuMemcpyDtoH (dst : pyval) (src : pyval) (n : Z)
| cuFileHandleDeregister (fh : pyval)
| os_close (d : pyval)
| cuFileBufDeregister (ptr : Z)
| cuMemFree (ptr : pyval)
| cuMemFreeHost (p : pyval)
| cuCtxDestroy (c : pyval)
| cuFileDriverClose
| print (l : PrintLine).

(** The outside world.  An answer may depend on everything that was called
    so far: each function is given the trace up to and including the call
    it answers.  The [O_] constants are those of the [os] module. *)
Record Env := mkEnv {
  O_CREAT : Z;
  O_RDWR : Z;
  O_TRUNC : Z;
  O_DIRECT : Z;
  cuInit_ret : list Call -> Z;
  cuDeviceGet_ret : list Call -> pyval;
  cuCtxCreate_ret : list Call -> pyval;
  CDLL_ret : list Call -> option Z;                 (* [Some errno]: OSError *)
  cuFileDriverOpen_ret : list Call -> CUfileError;
  cuMemAlloc_ret : list Call -> pyval;
  cuFileBufRegister_ret : list Call -> CUfileError;
  os_open_ret : list Call -> Z + Z;                 (* [inl fd] or [inr errno] *)
  os_close_ret : list Call -> option Z;             (* [Some errno]: OSError *)
  cuFileHandleRegister_ret : list Call -> CUfileError * Z;  (* status, handle written *)
  perf_counter_ret : list Call -> Q;
  cuFileWrite_ret : list Call -> Z;
  cuFileRead_ret : list Call -> Z;
  cuMemAllocHost_ret : list Call -> pyval;
  cuMemcpyDtoH_ret : list Call -> Z;
  host_memory : list Call -> Z -> nat -> Z          (* trace, address, index *)
}.

(** ** The monad: session state, trace and exceptions *)

Record State := mkState { self : PYGDS; trace : list Call }.

Definition M (A : Type) := State -> Res A * State.

Definition ret {A} (a : A) : M A := fun s => (Ok a, s).

Definition raise {A} (e : Exn) : M A := fun s => (Raise e, s).

Definition bind {A B} (m : M A) (k : A -> M B) : M B :=
  fun s => match m s with
           | (Ok a, s') => k a s'
           | (Raise e, s') => (Raise e, s')
           end.

Notation "x <- m ;; k" := (bind m (fun x => k))
  (at level 61, m at next level, right associativity).
Notation "m ;;; k" := (bind m (fun _ => k))
  (at level 61, right associativity).

(** [try: body finally: fin]: [fin] runs whatever [body] did; an exception
    of [fin] replaces the outcome of [body]. *)
Definition try_finally {A} (body : M A) (fin : M unit) : M A :=
  fun s => match body s with
           | (r, s1) => match fin s1 with
                        | (Ok _, s2) => (r, s2)
                        | (Raise e, s2) => (Raise e, s2)
                        end
           end.

(** Reading an attribute of [self]. *)
Definition attr {A} (f : PYGDS -> A) : M A := fun s => (Ok (f (self s)), s).

(** Updating [self]. *)
Definition modify (f : PYGDS -> PYGDS) : M unit :=
  fun s => (Ok tt, mkState (f (self s)) (trace s)).

(** An external call: logged, then answered from the trace. *)
Definition call {A} (c : Call) (answer : list Call -> A) : M A :=
  fun s => let t := trace s ++ [c] in (Ok (answer t), mkState (self s) t).

(** An external call whose result the program drops. *)
Definition call_ (c : Call) : M unit := call c (fun _ => tt).

(** An external call that raises [e] instead of returning. *)
Definition raising_call {A} (c : Call) (e : Exn) : M A :=
  fun s => (Raise e, mkState (self s) (trace s ++ [c])).

(** A call of the CUDA binding that takes [size] as a C [size_t]: a
    negative [size] does not convert, and the call raises [OverflowError]
    before the driver is reached.  Sizes are taken below 2^64. *)
Definition size_t_call {A} (size : Z) (c : Call) (answer : list Call -> A) : M A :=
  if size <? 0 then raising_call c OverflowError else call c answer.

Definition when (b : bool) (m : M unit) : M unit := if b then m else ret tt.

Fixpoint for_each {A} (l : list A) (body : A -> M unit) : M unit :=
  match l with
  | [] => ret tt
  | x :: l' => body x ;;; for_each l' body
  end.

(** ** Attribute assignment *)

Definition set_buffer_size (v : Z) (o : PYGDS) : PYGDS :=
  mkPYGDS v (pattern_byte o) (libcufile o) (device o) (ctx o) (dptr_w o)
          (dptr_r o) (hptr o) (cf_handle o) (fd o).
Definition set_pattern_byte (v : Z) (o : PYGDS) : PYGDS :=
  mkPYGDS (buffer_size o) v (libcufile o) (device o) (ctx o) (dptr_w o)
          (dptr_r o) (hptr o) (cf_handle o) (fd o).
Definition set_libcufile (v : bool) (o : PYGDS) : PYGDS :=
  mkPYGDS (buffer_size o) (pattern_byte o) v (device o) (ctx o) (dptr_w o)
          (dptr_r o) (hptr o) (cf_handle o) (fd o).
Definition set_device (v : pyval) (o : PYGDS) : PYGDS :=
  mkPYGDS (buffer_size o) (pattern_byte o) (libcufile o) v (ctx o) (dptr_w o)
          (dptr_r o) (hptr o) (cf_handle o) (fd o).
Definition set_ctx (v : pyval) (o : PYGDS) : PYGDS :=
  mkPYGDS (buffer_size o) (pattern_byte o) (libcufile o) (device o) v (dptr_w o)
          (dptr_r o) (hptr o) (cf_handle o) (fd o).
Definition set_dptr_w (v : pyval) (o : PYGDS) : PYGDS :=
  mkPYGDS (buffer_size o) (pattern_byte o) (libcufile o) (device o) (ctx o) v
          (dptr_r o) (hptr o) (cf_handle o) (fd o).
Definition set_dptr_r (v : pyval) (o : PYGDS) : PYGDS :=
  mkPYGDS (buffer_size o) (pattern_byte o) (libcufile o) (device o) (ctx o)
          (dptr_w o) v (hptr o) (cf_handle o) (fd o).
Definition set_hptr (v : pyval) (o : PYGDS) : PYGDS :=
  mkPYGDS (buffer_size o) (pattern_byte o) (libcufile o) (device o) (ctx o)
          (dptr_w o) (dptr_r o) v (cf_handle o) (fd o).
Definition set_cf_handle (v : pyval) (o : PYGDS) : PYGDS :=
  mkPYGDS (buffer_size o) (pattern_byte o) (libcufile o) (device o) (ctx o)
          (dptr_w o) (dptr_r o) (hptr o) v (fd o).
Definition set_fd (v : pyval) (o : PYGDS) : PYGDS :=
  mkPYGDS (buffer_size o) (pattern_byte o) (libcufile o) (device o) (ctx o)
          (dptr_w o) (dptr_r o) (hptr o) (cf_handle o) v.

(** ** Python's truth tests and conversions *)

(** [bool(v)] for [None], a [ctypes.c_void_p] or an [int]: false on [None],
    on NULL and on 0. *)
Definition truth_of_int (v : pyval) : bool :=
  match v with
  | None => false
  | Some a => negb (a =? 0)
  end.

(** [v is not None]. *)
Definition is_not_None (v : pyval) : bool :=
  match v with
  | None => false
  | Some _ => true
  end.

(** [bool(v)] for [None] or a handle object of the CUDA binding: the
    handle classes define no truth test of their own, so every handle
    object is true, a null one included. *)
Definition truth_of_object (v : pyval) : bool :=
  match v with
  | None => false
  | Some _ => true
  end.

(** [int(v)]: a [TypeError] on [None]. *)
Definition int_ (v : pyval) : M Z :=
  match v with
  | None => raise TypeError
  | Some a => ret a
  end.

(** [ctypes.c_ubyte(v).value]: ctypes does no overflow checking. *)
Definition c_ubyte (v : Z) : Z := v mod 256.

(** ** The methods of [PYGDS] *)

Section Methods.

Variable E : Env.

(** [_check_cuda(self, err, msg)]. *)
Definition _check_cuda (e : Z) (msg : string) : M unit :=
  if negb (e =? 0) then raise (RuntimeError (MsgCuda msg e)) else ret tt.

(** [_check_cufile(self, status, name)]. *)
Definition _check_cufile (status : CUfileError) (name : string) : M unit :=
  if negb (err status =? 0)
  then raise (RuntimeError (MsgCuFile name (err status) (cu_err status)))
  else ret tt.

(** [_initialize_cuda(self)]. *)
Definition _initialize_cuda : M unit :=
  e <- call (cuInit 0) (cuInit_ret E) ;;
  _check_cuda e "cuInit failed" ;;;
  d <- call (cuDeviceGet 0) (cuDeviceGet_ret E) ;;
  modify (set_device d) ;;;
  dev <- attr device ;;
  c <- call (cuCtxCreate 0 dev) (cuCtxCreate_ret E) ;;
  modify (set_ctx c).

(** [_initialize_cufile(self)]: loading the library raises [OSError] when
    it is missing; setting [restype] and [argtypes] calls nothing. *)
Definition _initialize_cufile : M unit :=
  l <- call (CDLL "libcufile.so") (CDLL_ret E) ;;
  match l with
  | Some errno => raise (OSError errno)
  | None =>
      modify (set_libcufile true) ;;;
      st <- call cuFileDriverOpen (cuFileDriverOpen_ret E) ;;
      _check_cufile st "cuFileDriverOpen"
  end.

(** [__init__(self, buffer_size, pattern_byte)]. *)
Definition __init__ (buffer_size pattern_byte : Z) : M unit :=
  modify (set_buffer_size buffer_size) ;;;
  modify (set_pattern_byte pattern_byte) ;;;
  _initialize_cuda ;;;
  _initialize_cufile ;;;
  modify (set_device None) ;;;
  modify (set_ctx None) ;;;
  modify (set_dptr_w None) ;;;
  modify (set_dptr_r None) ;;;
  modify (set_hptr None) ;;;
  modify (set_cf_handle None) ;;;
  modify (set_fd None).

(** [cuda.cuMemsetD8(dst, ctypes.c_ubyte(v), n)] as the source calls it.
    The binding takes the fill value as a C [unsigned char]; what it is
    given is a [ctypes.c_ubyte] object, which is no integer (the class has
    neither [__int__] nor [__index__]), so the call raises [TypeError]
    before the driver is reached.  The call logged carries the value of
    the object. *)
Definition cuMemsetD8_of_c_ubyte (dst : pyval) (v : Z) (n : Z) : M unit :=
  raising_call (cuMemsetD8 dst (c_ubyte v) n) TypeError.

(** [setup_buffers(self)]: the tuple the loop runs over is built before the
    first iteration. *)
Definition setup_buffers : M unit :=
  size <- attr buffer_size ;;
  w <- size_t_call size (cuMemAlloc size) (cuMemAlloc_ret E) ;;
  modify (set_dptr_w w) ;;;
  size <- attr buffer_size ;;
  r <- size_t_call size (cuMemAlloc size) (cuMemAlloc_ret E) ;;
  modify (set_dptr_r r) ;;;
  pw <- attr dptr_w ;;
  pat <- attr pattern_byte ;;
  size <- attr buffer_size ;;
  cuMemsetD8_of_c_ubyte pw pat size ;;;
  pw <- attr dptr_w ;;
  pr <- attr dptr_r ;;
  for_each [pw; pr] (fun ptr =>
    p <- int_ ptr ;;
    size <- attr buffer_size ;;
    st <- call (cuFileBufRegister p size 0) (cuFileBufRegister_ret E) ;;
    _check_cufile st "cuFileBufRegister").

(** The default of [flags] in [open_file]:
    [os.O_CREAT | os.O_RDWR | os.O_TRUNC | os.O_DIRECT]. *)
Definition default_flags : Z :=
  Z.lor (Z.lor (Z.lor (O_CREAT E) (O_RDWR E)) (O_TRUNC E)) (O_DIRECT E).

(** The default of [mode] in [open_file]: [0o644]. *)
Definition default_mode : Z := 420.

(** [open_file(self, filepath, flags, mode)]: [os.open] raises [OSError]
    before [self.fd] is assigned; [cuFileHandleRegister] writes the handle
    through [byref(self.cf_handle)]. *)
Definition open_file (filepath : string) (flags mode : Z) : M unit :=
  o <- call (os_open filepath flags mode) (os_open_ret E) ;;
  match o with
  | inr errno => raise (OSError errno)
  | inl d =>
      modify (set_fd (Some d)) ;;;
      fdv <- attr fd ;;
      d' <- int_ fdv ;;
      modify (set_cf_handle (Some 0)) ;;;
      r <- call (cuFileHandleRegister (mkCUfileDescr 1 d'))
                (cuFileHandleRegister_ret E) ;;
      modify (set_cf_handle (Some (snd r))) ;;;
      _check_cufile (fst r) "cuFileHandleRegister"
  end.

(** What a transfer returns: [(n / 1e6, dt * 1e3, (n / dt) / 1e9)], with the
    clock readings and the quotients taken as exact rationals. *)
Definition transfer_result (n : Z) (dt : Q) : M (Q * Q * Q) :=
  if Qeq_bool dt 0 then raise ZeroDivisionError
  else
    let bandwidth := ((inject_Z n / dt) / (1000000000 # 1))%Q in
    ret ((inject_Z n / (1000000 # 1))%Q, (dt * (1000 # 1))%Q, bandwidth).

(** [write_buffer(self, file_offset, device_offset)]. *)
Definition write_buffer (file_offset device_offset : Z) : M (Q * Q * Q) :=
  t0 <- call perf_counter (perf_counter_ret E) ;;
  h <- attr cf_handle ;;
  pw <- attr dptr_w ;;
  p <- int_ pw ;;
  size <- attr buffer_size ;;
  n <- call (cuFileWrite h p size file_offset device_offset) (cuFileWrite_ret E) ;;
  t1 <- call perf_counter (perf_counter_ret E) ;;
  let dt := (t1 - t0)%Q in
  size <- attr buffer_size ;;
  if negb (n =? size) then raise (RuntimeError (MsgWriteReturned n))
  else transfer_result n dt.

(** [read_buffer(self, file_offset, device_offset)]. *)
Definition read_buffer (file_offset device_offset : Z) : M (Q * Q * Q) :=
  t0 <- call perf_counter (perf_counter_ret E) ;;
  h <- attr cf_handle ;;
  pr <- attr dptr_r ;;
  p <- int_ pr ;;
  size <- attr buffer_size ;;
  n <- call (cuFileRead h p size file_offset device_offset) (cuFileRead_ret E) ;;
  t1 <- call perf_counter (perf_counter_ret E) ;;
  let dt := (t1 - t0)%Q in
  size <- attr buffer_size ;;
  if negb (n =? size) then raise (RuntimeError (MsgReadReturned n))
  else transfer_result n dt.

(** [(ctypes.c_ubyte * size).from_address(addr)] read as a list: [size]
    bytes of host memory from [addr] on, as the memory is after the calls
    of trace [t].  A negative length is a [ValueError], an address that is
    [None] a [TypeError]. *)
Definition from_address (size : Z) (addr : pyval) : M (list Z) :=
  if size <? 0 then raise ValueError
  else
    a <- int_ addr ;;
    fun s => (Ok (map (fun i => c_ubyte (host_memory E (trace s) a i))
                      (seq 0 (Z.to_nat size))), s).

(** [verify_buffer(self)]. *)
Definition verify_buffer : M bool :=
  size <- attr buffer_size ;;
  h <- size_t_call size (cuMemAllocHost size) (cuMemAllocHost_ret E) ;;
  modify (set_hptr h) ;;;
  dst <- attr hptr ;;
  src <- attr dptr_r ;;
  size <- attr buffer_size ;;
  e <- size_t_call size (cuMemcpyDtoH dst src size) (cuMemcpyDtoH_ret E) ;;
  _check_cuda e "cuMemcpyDtoH" ;;;
  size <- attr buffer_size ;;
  addr <- attr hptr ;;
  host_buf <- from_address size addr ;;
  pat <- attr pattern_byte ;;
  if existsb (fun b => negb (b =? pat)) host_buf
  then raise (RuntimeError MsgVerificationFailed)
  else ret true.

(** [os.close(d)]: raises [OSError] when the system refuses, as it does
    for a descriptor that is not open. *)
Definition os_close_ (d : pyval) : M unit :=
  r <- call (os_close d) (os_close_ret E) ;;
  match r with
  | Some errno => raise (OSError errno)
  | None => ret tt
  end.

(** [cleanup(self)]: nothing is caught, so an [OSError] of [os.close] ends
    it there. *)
Definition cleanup : M unit :=
  h <- attr cf_handle ;;
  when (truth_of_int h) (call_ (cuFileHandleDeregister h)) ;;;
  d <- attr fd ;;
  when (is_not_None d) (os_close_ d) ;;;
  pw <- attr dptr_w ;;
  when (truth_of_object pw)
       (p <- int_ pw ;;
        call_ (cuFileBufDeregister p) ;;;
        call_ (cuMemFree pw)) ;;;
  pr <- attr dptr_r ;;
  when (truth_of_object pr)
       (p <- int_ pr ;;
        call_ (cuFileBufDeregister p) ;;;
        call_ (cuMemFree pr)) ;;;
  hp <- attr hptr ;;
  when (truth_of_int hp) (call_ (cuMemFreeHost hp)) ;;;
  c <- attr ctx ;;
  when (truth_of_object c) (call_ (cuCtxDestroy c)) ;;;
  call_ cuFileDriverClose.

(** The statements of [run_demo] from the write to the verification
    (lines 155 to 165 of the source). *)
Definition run_demo_transfers : M unit :=
  w <- write_buffer 0 0 ;;
  call_ (print (LineWrite (fst (fst w)) (snd (fst w)) (snd w))) ;;;
  r <- read_buffer 0 0 ;;
  call_ (print (LineRead (fst (fst r)) (snd (fst r)) (snd r))) ;;;
  ok <- verify_buffer ;;
  pat <- attr pattern_byte ;;
  when ok (call_ (print (LinePassed pat))).

(** [run_demo(self, filepath)]. *)
Definition run_demo (filepath : string) : M unit :=
  try_finally
    (setup_buffers ;;;
     open_file filepath default_flags default_mode ;;;
     run_demo_transfers)
    cleanup.

(** The object before [__init__] has assigned anything: no attribute is
    read before it is assigned, so what stands here is never observed. *)
Definition blank : PYGDS :=
  mkPYGDS 0 0 false None None None None None None None.

(** [gds = PYGDS(); gds.run_demo()]: the defaults are [4*1024], [0xAB] and
    ["test_gds.bin"]; when the constructor raises there is no object and
    nothing more runs. *)
Definition main : M unit :=
  fun s =>
    match __init__ (4 * 1024) 171 (mkState blank (trace s)) with
    | (Ok _, s') => run_demo "test_gds.bin" s'
    | (Raise e, s') => (Raise e, s')
    end.

End Methods.

(** ** Reading traces *)

(** The calls [cleanup] makes when it runs to its end on a session whose
    attributes are [o], in the order it makes them (see [cleanup_runs]). *)
Definition handle_release (o : PYGDS) : list Call :=
  match cf_handle o with
  | Some h => if h =? 0 then [] else [cuFileHandleDeregister (Some h)]
  | None => []
  end.

Definition buffer_release (v : pyval) : list Call :=
  match v with
  | Some p => [cuFileBufDeregister p; cuMemFree (Some p)]
  | None => []
  end.

Definition cleanup_calls (o : PYGDS) : list Call :=
  handle_release o
  ++ match fd o with Some d => [os_close (Some d)] | None => [] end
  ++ buffer_release (dptr_w o)
  ++ buffer_release (dptr_r o)
  ++ match hptr o with
     | Some a => if a =? 0 then [] else [cuMemFreeHost (Some a)]
     | None => []
     end
  ++ match ctx o with Some c => [cuCtxDestroy (Some c)] | None => [] end
  ++ [cuFileDriverClose].

(** The calls [cleanup] makes when the close of descriptor [d] raises. *)
Definition cleanup_calls_until_close (o : PYGDS) (d : Z) : list Call :=
  handle_release o ++ [os_close (Some d)].

(** What [os.close] answers to [cleanup] called in state [s], whose session
    holds descriptor [d]. *)
Definition close_answer (E : Env) (s : State) (d : Z) : option Z :=
  os_close_ret E (trace s ++ cleanup_calls_until_close (self s) d).

(** Whether [cleanup] called in state [s] gets past [os.close]: there is no
    descriptor to close, or the close does not raise. *)
Definition closes_quietly (E : Env) (s : State) : Prop :=
  forall d, fd (self s) = Some d -> close_answer E s d = None.

(** How [cleanup] called in state [s] ends, and the calls it makes. *)
Definition cleanup_outcome (E : Env) (s : State) : Res unit * list Call :=
  match fd (self s) with
  | Some d =>
      match close_answer E s d with
      | Some errno => (Raise (OSError errno), cleanup_calls_until_close (self s) d)
      | None => (Ok tt, cleanup_calls (self s))
      end
  | None => (Ok tt, cleanup_calls (self s))
  end.

(** A direct-storage transfer. *)
Definition is_transfer (c : Call) : bool :=
  match c with
  | cuFileWrite _ _ _ _ _ | cuFileRead _ _ _ _ _ => true
  | _ => false
  end.

(** A release call of teardown. *)
Definition is_release (c : Call) : bool :=
  match c with
  | cuFileHandleDeregister _ | os_close _ | cuFileBufDeregister _
  | cuMemFree _ | cuMemFreeHost _ | cuCtxDestroy _ | cuFileDriverClose => true
  | _ => false
  end.

(** What the driver answers to the [cuFileWrite] of [write_buffer] called
    in state [s], when the write buffer is at [p]. *)
Definition write_reported (E : Env) (file_offset device_offset : Z)
    (s : State) (p : Z) : Z :=
  cuFileWrite_ret E
    (trace s ++ [perf_counter;
                 cuFileWrite (cf_handle (self s)) p (buffer_size (self s))
                             file_offset device_offset]).

(** What the driver answers to the [cuFileRead] of [read_buffer]. *)
Definition read_reported (E : Env) (file_offset device_offset : Z)
    (s : State) (p : Z) : Z :=
  cuFileRead_ret E
    (trace s ++ [perf_counter;
                 cuFileRead (cf_handle (self s)) p (buffer_size (self s))
                            file_offset device_offset]).

(** The trace of [verify_buffer] once it has staged the read buffer at host
    address [a], and the bytes it then checks. *)
Definition staged_trace (s : State) (a : Z) : list Call :=
  (trace s ++ [cuMemAllocHost (buffer_size (self s))])
  ++ [cuMemcpyDtoH (Some a) (dptr_r (self s)) (buffer_size (self s))].

Definition staged_host_copy (E : Env) (s : State) (a : Z) : list Z :=
  map (fun i => c_ubyte (host_memory E (staged_trace s a) a i))
      (seq 0 (Z.to_nat (buffer_size (self s)))).

(** ** Concrete worlds

    A Linux machine ([O_CREAT] 0o100, [O_RDWR] 0o2, [O_TRUNC] 0o1000,
    [O_DIRECT] 0o40000) on which CUDA starts, the library loads, the two
    allocations give distinct addresses, the file opens as descriptor 3 and
    the clock advances by one at each call.  Closing a descriptor succeeds
    once: a second close of the same descriptor, with no [os.open] in
    between, is refused with [EBADF] (9).  What varies: the status of a
    buffer registration, the answer to the registration of the file, the
    byte counts of the write and of the read, and the host memory. *)
Fixpoint closed_in (d : Z) (closed : bool) (t : list Call) : bool :=
  match t with
  | [] => closed
  | c :: t' =>
      closed_in d (match c with
                   | os_close (Some d') => if d' =? d then true else closed
                   | os_open _ _ _ => false
                   | _ => closed
                   end) t'
  end.

Definition close_once (t : list Call) : option Z :=
  match last t cuFileDriverClose with
  | os_close (Some d) => if closed_in d false (removelast t) then Some 9 else None
  | _ => None
  end.

Definition world (bufreg : list Call -> CUfileError)
    (hreg : CUfileError * Z) (written read_ : Z)
    (mem : nat -> Z) : Env :=
  mkEnv 64 2 512 16384
        (fun _ => 0)
        (fun _ => Some 0)
        (fun _ => Some 1000)
        (fun _ => None)
        (fun _ => mkCUfileError 0 0)
        (fun t => Some (65536 * Z.of_nat (List.length t)))
        bufreg
        (fun _ => inl 3)
        close_once
        (fun _ => hreg)
        (fun t => inject_Z (Z.of_nat (List.length t)))
        (fun _ => written)
        (fun _ => read_)
        (fun _ => Some 7340032)
        (fun _ => 0)
        (fun _ _ i => mem i).

Definition status_ok : CUfileError := mkCUfileError 0 0.

(** Everything succeeds and the data comes back intact. *)
Definition nominal : Env :=
  world (fun _ => status_ok) (status_ok, 5000) 4096 4096 (fun _ => 171).

(** The driver writes fewer bytes than asked. *)
Definition short_write : Env :=
  world (fun _ => status_ok) (status_ok, 5000) 512 4096 (fun _ => 171).

(** The driver fails the read with a negative code. *)
Definition failed_read : Env :=
  world (fun _ => status_ok) (status_ok, 5000) 4096 (-5) (fun _ => 171).

(** The driver refuses the file and leaves the handle null. *)
Definition no_file_handle : Env :=
  world (fun _ => status_ok) (mkCUfileError 5022 0, 0) 4096 4096 (fun _ => 171).

(** The byte at offset 10 comes back changed. *)
Definition corrupted : Env :=
  world (fun _ => status_ok) (status_ok, 5000) 4096 4096
        (fun i => if Nat.eqb i 10 then 170 else 171).

(** A session right after a successful constructor, with the defaults. *)
Definition fresh : PYGDS :=
  mkPYGDS 4096 171 true None None None None None None None.

(** A session that holds every resource. *)
Definition full : PYGDS :=
  mkPYGDS 4096 171 true (Some 0) (Some 1000) (Some 65536) (Some 131072)
          (Some 7340032) (Some 5000) (Some 3).

(** ** The orders of release

    The release steps as the specification lists them: deregister the file
    handle, close the descriptor, deregister each buffer, free each buffer,
    destroy the context, close the driver.  A call that is none of these
    has no step. *)
Definition listed_step (c : Call) : option nat :=
  match c with
  | cuFileHandleDeregister _ => Some 0%nat
  | os_close _ => Some 1%nat
  | cuFileBufDeregister _ => Some 2%nat
  | cuMemFree _ => Some 3%nat
  | cuCtxDestroy _ => Some 4%nat
  | cuFileDriverClose => Some 5%nat
  | _ => None
  end.

(** The steps of [cleanup]: a buffer is deregistered and freed in one and
    the same step, and the host copy is freed before the context goes. *)
Definition cleanup_step (c : Call) : option nat :=
  match c with
  | cuFileHandleDeregister _ => Some 0%nat
  | os_close _ => Some 1%nat
  | cuFileBufDeregister _ | cuMemFree _ => Some 2%nat
  | cuMemFreeHost _ => Some 3%nat
  | cuCtxDestroy _ => Some 4%nat
  | cuFileDriverClose => Some 5%nat
  | _ => None
  end.

Fixpoint steps (step : Call -> option nat) (t : list Call) : list nat :=
  match t with
  | [] => []
  | c :: t' => match step c with
               | Some k => k :: steps step t'
               | None => steps step t'
               end
  end.

Fixpoint nondecreasing (l : list nat) : bool :=
  match l with
  | a :: ((b :: _) as l') => Nat.leb a b && nondecreasing l'
  | _ => true
  end.

(** Every step of the trace comes no earlier in the list than the steps
    before it. *)
Definition in_order (step : Call -> option nat) (t : list Call) : bool :=
  nondecreasing (steps step t).

(** Every [cuMemFree] comes right after the [cuFileBufDeregister] of the
    same pointer; [prev] is the call before the trace. *)
Fixpoint freed_after_deregister (prev : option Call) (t : list Call) : bool :=
  match t with
  | [] => true
  | c :: t' =>
      match c with
      | cuMemFree x =>
          match prev, x with
          | Some (cuFileBufDeregister q), Some p => p =? q
          | _, _ => false
          end
      | _ => true
      end && freed_after_deregister (Some c) t'
  end.

(** Whether the trace holds any [cuFileBufRegister] of [p]. *)
Definition registration_attempted (t : list Call) (p : Z) : bool :=
  existsb (fun c => match c with
                    | cuFileBufRegister q _ _ => q =? p
                    | _ => false
                    end) t.

(** The destruction of a context. *)
Definition is_ctx_destroy (c : Call) : bool :=
  match c with
  | cuCtxDestroy _ => true
  | _ => false
  end.

(** The creation of a context. *)
Definition is_ctx_create (c : Call) : bool :=
  match c with
  | cuCtxCreate _ _ => true
  | _ => false
  end.

(** The session holds no context. *)
Definition no_ctx (o : PYGDS) : Prop := ctx o = None.

(** Any call but the destruction of a context. *)
Definition not_destroy (c : Call) : bool := negb (is_ctx_destroy c).

(** [m] keeps the property [I] of the session and only adds calls that
    satisfy [P] to the trace. *)
Definition respects {A} (I : PYGDS -> Prop) (P : Call -> bool) (m : M A) : Prop :=
  forall s, I (self s) ->
            I (self (snd (m s)))
            /\ exists l, trace (snd (m s)) = trace s ++ l /\ forallb P l = true.

(** ** Answers of the world during construction *)

(** What [cuInit], [cuDeviceGet] and [cuCtxCreate] answer to
    [_initialize_cuda] called in state [s]. *)
Definition cuInit_answer (E : Env) (s : State) : Z :=
  cuInit_ret E (trace s ++ [cuInit 0]).

Definition device_answer (E : Env) (s : State) : pyval :=
  cuDeviceGet_ret E (trace s ++ [cuInit 0; cuDeviceGet 0]).

Definition context_answer (E : Env) (s : State) : pyval :=
  cuCtxCreate_ret E (trace s ++ [cuInit 0; cuDeviceGet 0;
                                 cuCtxCreate 0 (device_answer E s)]).

(** What loading the library and opening the driver answer to
    [_initialize_cufile] called in state [s]. *)
Definition load_answer (E : Env) (s : State) : option Z :=
  CDLL_ret E (trace s ++ [CDLL "libcufile.so"]).

Definition driver_open_answer (E : Env) (s : State) : CUfileError :=
  cuFileDriverOpen_ret E (trace s ++ [CDLL "libcufile.so"; cuFileDriverOpen]).

(** The calls of a constructor that runs to its end; [d] is the device. *)
Definition constructor_calls (d : pyval) : list Call :=
  [cuInit 0; cuDeviceGet 0; cuCtxCreate 0 d; CDLL "libcufile.so"; cuFileDriverOpen].

(** Any call but a release. *)
Definition not_release (c : Call) : bool := negb (is_release c).

(** A world like [nominal] but for how CUDA starts, how the library loads
    and how the driver opens. *)
Definition startup_world (init : Z) (load : option Z) (opened : CUfileError) : Env :=
  mkEnv 64 2 512 16384
        (fun _ => init)
        (fun _ => Some 0)
        (fun _ => Some 1000)
        (fun _ => load)
        (fun _ => opened)
        (cuMemAlloc_ret nominal)
        (cuFileBufRegister_ret nominal)
        (os_open_ret nominal)
        (os_close_ret nominal)
        (cuFileHandleRegister_ret nominal)
        (perf_counter_ret nominal)
        (cuFileWrite_ret nominal)
        (cuFileRead_ret nominal)
        (cuMemAllocHost_ret nominal)
        (cuMemcpyDtoH_ret nominal)
        (host_memory nominal).

(** A world like [nominal] but for the device allocations, the opening of
    the file, the clock and the copy to the host. *)
Definition io_world (alloc : list Call -> pyval) (opened : Z + Z)
    (clock : list Call -> Q) (copied : Z) : Env :=
  mkEnv 64 2 512 16384
        (cuInit_ret nominal)
        (cuDeviceGet_ret nominal)
        (cuCtxCreate_ret nominal)
        (CDLL_ret nominal)
        (cuFileDriverOpen_ret nominal)
        alloc
        (cuFileBufRegister_ret nominal)
        (fun _ => opened)
        (os_close_ret nominal)
        (cuFileHandleRegister_ret nominal)
        clock
        (cuFileWrite_ret nominal)
        (cuFileRead_ret nominal)
        (cuMemAllocHost_ret nominal)
        (fun _ => copied)
        (host_memory nominal).

(** The state in which [_initialize_cufile] starts when [cuInit] succeeded:
    as far as the trace goes, [s] after the three calls of [_initialize_cuda]. *)
Definition after_cuda (E : Env) (s : State) : State :=
  mkState (self s)
          (trace s ++ [cuInit 0; cuDeviceGet 0; cuCtxCreate 0 (device_answer E s)]).

(** ** Answers of the world to [setup_buffers] *)

(** What the two [cuMemAlloc] of [setup_buffers] called in state [s] give. *)
Definition write_pointer (E : Env) (s : State) : pyval :=
  cuMemAlloc_ret E (trace s ++ [cuMemAlloc (buffer_size (self s))]).

Definition read_pointer (E : Env) (s : State) : pyval :=
  cuMemAlloc_ret E (trace s ++ [cuMemAlloc (buffer_size (self s));
                                cuMemAlloc (buffer_size (self s))]).

(** The state after the two allocations and the call that should fill the
    write buffer. *)
Definition buffers_allocated (E : Env) (s : State) : State :=
  mkState (set_dptr_r (read_pointer E s) (set_dptr_w (write_pointer E s) (self s)))
          (trace s ++ [cuMemAlloc (buffer_size (self s));
                       cuMemAlloc (buffer_size (self s));
                       cuMemsetD8 (write_pointer E s)
                                  (c_ubyte (pattern_byte (self s)))
                                  (buffer_size (self s))]).

(** ** Answers of the world to [open_file] *)

(** What [os.open] gives, and what the driver answers to the registration
    of descriptor [d]: a status and the handle it wrote. *)
Definition open_answer (E : Env) (filepath : string) (flags mode : Z)
    (s : State) : Z + Z :=
  os_open_ret E (trace s ++ [os_open filepath flags mode]).

Definition handle_answer (E : Env) (filepath : string) (flags mode : Z)
    (s : State) (d : Z) : CUfileError * Z :=
  cuFileHandleRegister_ret E
    (trace s ++ [os_open filepath flags mode;
                 cuFileHandleRegister (mkCUfileDescr 1 d)]).

(** ** Answers of the world to a transfer and to [verify_buffer] *)

(** The clock readings around the driver call [c] of a transfer. *)
Definition clock_before (E : Env) (s : State) : Q :=
  perf_counter_ret E (trace s ++ [perf_counter]).

Definition clock_after (E : Env) (s : State) (c : Call) : Q :=
  perf_counter_ret E (trace s ++ [perf_counter; c; perf_counter]).

(** What [cuMemAllocHost] gives and what [cuMemcpyDtoH] returns. *)
Definition host_answer (E : Env) (s : State) : pyval :=
  cuMemAllocHost_ret E (trace s ++ [cuMemAllocHost (buffer_size (self s))]).

Definition copy_answer (E : Env) (s : State) : Z :=
  cuMemcpyDtoH_ret E
    (trace s ++ [cuMemAllocHost (buffer_size (self s));
                 cuMemcpyDtoH (host_answer E s) (dptr_r (self s))
                              (buffer_size (self s))]).

(** ** Kinds of calls *)

(** A call of the constructor. *)
Definition is_startup (c : Call) : bool :=
  match c with
  | cuInit _ | cuDeviceGet _ | cuCtxCreate _ _ | CDLL _ | cuFileDriverOpen => true
  | _ => false
  end.

(** A call that neither starts nor releases anything. *)
Definition working (c : Call) : bool := negb (is_release c) && negb (is_startup c).

(** No condition on the session. *)
Definition any_session (o : PYGDS) : Prop := True.

(** The opening and the closing of the driver. *)
Definition is_driver_open (c : Call) : bool :=
  match c with cuFileDriverOpen => true | _ => false end.

Definition is_driver_close (c : Call) : bool :=
  match c with cuFileDriverClose => true | _ => false end.

(** How many calls of a trace satisfy [f]. *)
Definition count_calls (f : Call -> bool) (t : list Call) : nat :=
  List.length (filter f t).

(** ** The steps of [run_demo] *)

(** The state after [cleanup] has run (see [cleanup_runs]). *)
Definition cleaned_up (E : Env) (s : State) : State :=
  mkState (self s) (trace s ++ snd (cleanup_outcome E s)).

(** The state in which [setup_buffers] called in state [s] raises: after
    the two allocations and the fill call, or, for a negative size, after
    the first allocation call. *)
Definition setup_buffers_stops (E : Env) (s : State) : State :=
  if buffer_size (self s) <? 0
  then mkState (self s) (trace s ++ [cuMemAlloc (buffer_size (self s))])
  else buffers_allocated E s.

(** A session as the demo leaves it: the two buffers allocated, nothing
    else held. *)
Definition buffers_only : PYGDS :=
  set_dptr_r (Some 131072) (set_dptr_w (Some 65536) fresh).

(** Worlds in which the file does not open (errno 13), the clock stands
    still, and the copy to the host fails with code 700. *)
Definition no_permission : Env :=
  io_world (cuMemAlloc_ret nominal) (inr 13) (perf_counter_ret nominal) 0.

Definition frozen_clock : Env :=
  io_world (cuMemAlloc_ret nominal) (inl 3) (fun _ => 5 # 1) 0.


(** The driver refuses to open (status 5001). *)
Definition driver_refused : Env := startup_world 0 None (mkCUfileError 5001 0).

(** A session with buffers of length 0, and one whose pattern (0x1AB) is
    wider than a byte. *)
Definition empty_session : PYGDS := set_buffer_size 0 full.

Definition wide_pattern_session : PYGDS := set_pattern_byte 427 full.

(** * Theorems *)

(** ** Running the monad *)

Ltac run :=
  unfold bind, attr, modify, when, call_, call, int_, ret, raise; cbn.

Ltac split_tests :=
  repeat match goal with
         | |- context [if ?b then _ else _] => destruct b eqn:?; cbn
         | |- context [match ?v with Some _ => _ | None => _ end] =>
             destruct v eqn:?; cbn
         | |- context [match ?v with inl _ => _ | inr _ => _ end] =>
             destruct v eqn:?; cbn
         end.

(** The same on a goal that must not be unfolded further. *)
Ltac split_attrs :=
  repeat match goal with
         | |- context [if ?b then _ else _] => destruct b eqn:?; cbv beta iota
         | |- context [match ?v with Some _ => _ | None => _ end] =>
             destruct v eqn:?; cbv beta iota
         end.

(** [cleanup] assigns no attribute and ends as [cleanup_outcome] says. *)
Lemma cleanup_runs (E : Env) (s : State) :
  cleanup E s
  = (fst (cleanup_outcome E s),
     mkState (self s) (trace s ++ snd (cleanup_outcome E s))).
Proof.
  destruct s as [o t].
  unfold cleanup_outcome, close_answer, cleanup_calls_until_close, cleanup_calls,
    handle_release, buffer_release.
  unfold cleanup, os_close_, truth_of_object, truth_of_int, is_not_None. run.
  destruct (cf_handle o) as [h|]; [destruct (h =? 0)|]; cbn;
    (destruct (fd o) as [d|]; cbn;
     [ rewrite <- ?app_assoc; cbn;
       match goal with
       | |- context [os_close_ret E ?x] => destruct (os_close_ret E x)
       end; cbn; [reflexivity|]
     | ]);
    split_tests; rewrite <- ?app_assoc; cbn;
    first [reflexivity | cbn in *; congruence].
Qed.

(** When the close does not raise, [cleanup] runs to its end. *)
Lemma cleanup_completes (E : Env) (s : State) :
  closes_quietly E s ->
  cleanup E s = (Ok tt, mkState (self s) (trace s ++ cleanup_calls (self s))).
Proof.
  intros Hq. rewrite cleanup_runs. unfold cleanup_outcome.
  destruct (fd (self s)) as [d|] eqn:Hd; [|reflexivity].
  rewrite (Hq d Hd). reflexivity.
Qed.

(** ** Membership in the calls of [cleanup] *)

Lemma in_handle_release (o : PYGDS) (c : Call) :
  In c (handle_release o) <->
  exists h, cf_handle o = Some h /\ h <> 0 /\ c = cuFileHandleDeregister (Some h).
Proof.
  unfold handle_release. split.
  - destruct (cf_handle o) as [h|]; [|intros []].
    destruct (h =? 0) eqn:Hh; [intros []|].
    apply Z.eqb_neq in Hh. intros [<- | []]. exists h. auto.
  - intros (h & -> & Hh & ->). apply Z.eqb_neq in Hh. rewrite Hh. left. reflexivity.
Qed.

Lemma in_buffer_release (v : pyval) (c : Call) :
  In c (buffer_release v) <->
  exists p, v = Some p /\ (c = cuFileBufDeregister p \/ c = cuMemFree (Some p)).
Proof.
  unfold buffer_release. split.
  - destruct v as [p|]; cbn; [|tauto].
    intros [<- | [<- | []]]; exists p; auto.
  - intros (p & -> & [-> | ->]); cbn; auto.
Qed.

Lemma in_cleanup_calls (o : PYGDS) (c : Call) :
  In c (cleanup_calls o) <->
  In c (handle_release o)
  \/ (exists d, fd o = Some d /\ c = os_close (Some d))
  \/ In c (buffer_release (dptr_w o))
  \/ In c (buffer_release (dptr_r o))
  \/ (exists a, hptr o = Some a /\ a <> 0 /\ c = cuMemFreeHost (Some a))
  \/ (exists x, ctx o = Some x /\ c = cuCtxDestroy (Some x))
  \/ c = cuFileDriverClose.
Proof.
  unfold cleanup_calls. rewrite !in_app_iff.
  assert (Hfd : In c match fd o with Some d => [os_close (Some d)] | None => [] end
                <-> exists d, fd o = Some d /\ c = os_close (Some d)).
  { destruct (fd o) as [d|]; cbn.
    - split; [intros [<- | []]; eauto | intros (d' & Hd & ->); inversion Hd; auto].
    - split; [intros [] | intros (d' & Hd & _); discriminate Hd]. }
  assert (Hh : In c match hptr o with
                    | Some a => if a =? 0 then [] else [cuMemFreeHost (Some a)]
                    | None => []
                    end
               <-> exists a, hptr o = Some a /\ a <> 0 /\ c = cuMemFreeHost (Some a)).
  { destruct (hptr o) as [a|]; cbn.
    - destruct (a =? 0) eqn:Ha; cbn.
      + apply Z.eqb_eq in Ha. split; [intros [] |].
        intros (a' & Hd & Hn & _). inversion Hd; subst. contradiction.
      + apply Z.eqb_neq in Ha. split; [intros [<- | []]; eauto |].
        intros (a' & Hd & _ & ->). inversion Hd; auto.
    - split; [intros [] | intros (a' & Hd & _); discriminate Hd]. }
  assert (Hc : In c match ctx o with Some x => [cuCtxDestroy (Some x)] | None => [] end
               <-> exists x, ctx o = Some x /\ c = cuCtxDestroy (Some x)).
  { destruct (ctx o) as [x|]; cbn.
    - split; [intros [<- | []]; eauto | intros (x' & Hd & ->); inversion Hd; auto].
    - split; [intros [] | intros (x' & Hd & _); discriminate Hd]. }
  rewrite Hfd, Hh, Hc. cbn. intuition auto.
Qed.

Lemma lor_keeps_r (a b : Z) : Z.land (Z.lor a b) b = b.
Proof.
  apply Z.bits_inj'. intros n _.
  rewrite Z.land_spec, Z.lor_spec.
  destruct (Z.testbit a n), (Z.testbit b n); reflexivity.
Qed.

Lemma lor_keeps_l (a b c : Z) : Z.land a c = c -> Z.land (Z.lor a b) c = c.
Proof.
  intros H. apply Z.bits_inj'. intros n _.
  rewrite Z.land_spec, Z.lor_spec.
  assert (Hn : Z.testbit (Z.land a c) n = Z.testbit c n) by (rewrite H; reflexivity).
  rewrite Z.land_spec in Hn.
  destruct (Z.testbit a n), (Z.testbit b n), (Z.testbit c n);
    cbn in *; congruence.
Qed.

(** ** The claims *)

(** C9.  [write_buffer] and [read_buffer] assign no attribute of the
    session: whatever the world answers and whether the method returns or
    raises, the object, that is [buffer_size], [pattern_byte], [device],
    [ctx], [dptr_w], [dptr_r], [hptr], [cf_handle] and [fd], is afterwards
    what it was before. *)
Theorem transfers_assign_nothing (E : Env) (file_offset device_offset : Z)
    (s : State) :
  self (snd (write_buffer E file_offset device_offset s)) = self s
  /\ self (snd (read_buffer E file_offset device_offset s)) = self s.
Proof.
  unfold write_buffer, read_buffer, transfer_result. run.
  split; split_tests; reflexivity.
Qed.

(** C8.  Called with its default flags, [open_file] first opens the path
    with exactly those flags and mode [0o644], and the flags contain
    [O_DIRECT], [O_CREAT], [O_TRUNC] and [O_RDWR], whatever the values the
    [os] module gives these constants. *)
Theorem open_file_default_flags (E : Env) (filepath : string) (s : State) :
  (exists l,
      trace (snd (open_file E filepath (default_flags E) default_mode s))
      = trace s ++ os_open filepath (default_flags E) 420 :: l)
  /\ Z.land (default_flags E) (O_DIRECT E) = O_DIRECT E
  /\ Z.land (default_flags E) (O_CREAT E) = O_CREAT E
  /\ Z.land (default_flags E) (O_TRUNC E) = O_TRUNC E
  /\ Z.land (default_flags E) (O_RDWR E) = O_RDWR E.
Proof.
  split.
  - unfold open_file, _check_cufile, default_mode. run.
    split_tests; rewrite <- ?app_assoc; cbn; eexists; reflexivity.
  - unfold default_flags. repeat split.
    + apply lor_keeps_r.
    + do 2 apply lor_keeps_l. rewrite Z.lor_comm. apply lor_keeps_r.
    + apply lor_keeps_l, lor_keeps_r.
    + do 2 apply lor_keeps_l. apply lor_keeps_r.
Qed.



(** The calls of a [cleanup] that runs to its end, and their order. *)
Lemma cleanup_calls_in_order (o : PYGDS) :
  in_order cleanup_step (cleanup_calls o) = true
  /\ freed_after_deregister None (cleanup_calls o) = true
  /\ exists l', cleanup_calls o = l' ++ [cuFileDriverClose]
                /\ ~ In cuFileDriverClose l'
                /\ (forall c, In c (cleanup_calls o) -> c <> cuFileDriverClose ->
                              In c l').
Proof.
  unfold cleanup_calls, handle_release, buffer_release.
  split; [|split].
  - split_attrs; reflexivity.
  - split_attrs; cbn; rewrite ?Z.eqb_refl; reflexivity.
  - rewrite !app_assoc. eexists. split; [reflexivity|]. split.
    + rewrite !in_app_iff. split_attrs; cbn; intuition discriminate.
    + intros c Hc Hne. apply in_app_iff in Hc. destruct Hc as [Hc | [Hc | []]];
        [exact Hc | congruence].
Qed.

Lemma cleanup_calls_until_close_in_order (o : PYGDS) (d : Z) :
  in_order cleanup_step (cleanup_calls_until_close o d) = true
  /\ freed_after_deregister None (cleanup_calls_until_close o d) = true
  /\ Forall (fun c => match c with
                      | cuFileHandleDeregister _ | os_close _ => True
                      | _ => False
                      end) (cleanup_calls_until_close o d).
Proof.
  unfold cleanup_calls_until_close, handle_release.
  split; [|split]; split_attrs; cbn; auto.
Qed.

(** C2, as stated.  On the session that holds every resource, the calls of
    [cleanup] are not in the listed order: the write buffer is freed before
    the read buffer is deregistered. *)
Lemma cleanup_interleaves_buffers :
  trace (snd (cleanup nominal (mkState full [])))
  = [cuFileHandleDeregister (Some 5000); os_close (Some 3);
     cuFileBufDeregister 65536; cuMemFree (Some 65536);
     cuFileBufDeregister 131072; cuMemFree (Some 131072);
     cuMemFreeHost (Some 7340032); cuCtxDestroy (Some 1000);
     cuFileDriverClose]
  /\ in_order listed_step (trace (snd (cleanup nominal (mkState full [])))) = false.
Proof. split; reflexivity. Qed.

(** C2, amended.  [cleanup] releases in this order: it deregisters the
    file handle, closes the descriptor, deregisters and at once frees the
    write buffer, deregisters and at once frees the read buffer, frees the
    host buffer, destroys the context and closes the driver, each step
    only when its attribute holds a resource; when the close of the
    descriptor raises it stops there.  So no step comes before an earlier
    one and every free comes right after the deregistration of the same
    buffer.  Whenever the driver is closed, that is the last call, it is
    made once, and every buffer and the file handle that the session holds
    have been deregistered before it. *)
Theorem cleanup_release_order (E : Env) (s : State) :
  let o := self s in
  let l := snd (cleanup_outcome E s) in
  cleanup E s = (fst (cleanup_outcome E s), mkState o (trace s ++ l))
  /\ in_order cleanup_step l = true
  /\ freed_after_deregister None l = true
  /\ (closes_quietly E s -> fst (cleanup_outcome E s) = Ok tt /\ l = cleanup_calls o)
  /\ (In cuFileDriverClose l ->
      exists l',
        l = l' ++ [cuFileDriverClose]
        /\ ~ In cuFileDriverClose l'
        /\ (forall p, dptr_w o = Some p \/ dptr_r o = Some p ->
                      In (cuFileBufDeregister p) l')
        /\ (forall h, cf_handle o = Some h -> h <> 0 ->
                      In (cuFileHandleDeregister (Some h)) l')).
Proof.
  intros o l. split; [apply cleanup_runs|].
  assert (Hfull : l = cleanup_calls o ->
            In cuFileDriverClose l ->
            exists l',
              l = l' ++ [cuFileDriverClose]
              /\ ~ In cuFileDriverClose l'
              /\ (forall p, dptr_w o = Some p \/ dptr_r o = Some p ->
                            In (cuFileBufDeregister p) l')
              /\ (forall h, cf_handle o = Some h -> h <> 0 ->
                            In (cuFileHandleDeregister (Some h)) l')).
  { intros -> _. destruct (cleanup_calls_in_order o) as (_ & _ & l' & Hl & Hn & Hin).
    exists l'. split; [exact Hl|]. split; [exact Hn|]. split.
    - intros p Hp. apply Hin; [|discriminate].
      apply in_cleanup_calls. rewrite !in_buffer_release.
      destruct Hp as [Hp | Hp]; [right; right; left | right; right; right; left];
        eauto.
    - intros h Hh Hn0. apply Hin; [|discriminate].
      apply in_cleanup_calls. left. apply in_handle_release. eauto. }
  subst l. unfold cleanup_outcome, closes_quietly in *.
  destruct (fd (self s)) as [d|] eqn:Hd.
  - destruct (close_answer E s d) as [errno|] eqn:Hc; cbn [fst snd] in *.
    + destruct (cleanup_calls_until_close_in_order o d) as (H1 & H2 & H3).
      split; [exact H1|]. split; [exact H2|]. split.
      * intros Hq. specialize (Hq d eq_refl). congruence.
      * intros Hin. rewrite Forall_forall in H3. apply H3 in Hin. destruct Hin.
    + destruct (cleanup_calls_in_order o) as (H1 & H2 & _).
      split; [exact H1|]. split; [exact H2|]. split; [auto|]. apply Hfull. reflexivity.
  - cbn [fst snd] in *. destruct (cleanup_calls_in_order o) as (H1 & H2 & _).
    split; [exact H1|]. split; [exact H2|]. split; [auto|]. apply Hfull. reflexivity.
Qed.

(** The calls of a [cleanup] cut short are the first calls of one that runs
    to its end. *)
Lemma cleanup_calls_until_close_prefix (o : PYGDS) (d : Z) :
  fd o = Some d ->
  exists l3, cleanup_calls o = cleanup_calls_until_close o d ++ l3.
Proof.
  intros Hd. unfold cleanup_calls, cleanup_calls_until_close. rewrite Hd.
  eexists. rewrite <- app_assoc. cbn. reflexivity.
Qed.

(** C3, as stated.  A second [cleanup] releases again.  On the session that
    holds every resource it deregisters the file handle a second time and
    closes the descriptor a second time, which the system refuses: the
    second [cleanup] raises [OSError].  On the session that holds the two
    buffers only, as the demo leaves it, it deregisters and frees both
    buffers a second time and closes the driver a second time. *)
Lemma cleanup_twice_releases_twice :
  (cleanup nominal ;;; cleanup nominal) (mkState full [])
  = (Raise (OSError 9),
     mkState full
       [cuFileHandleDeregister (Some 5000); os_close (Some 3);
        cuFileBufDeregister 65536; cuMemFree (Some 65536);
        cuFileBufDeregister 131072; cuMemFree (Some 131072);
        cuMemFreeHost (Some 7340032); cuCtxDestroy (Some 1000);
        cuFileDriverClose;
        cuFileHandleDeregister (Some 5000); os_close (Some 3)])
  /\ (cleanup nominal ;;; cleanup nominal) (mkState buffers_only [])
     = (Ok tt,
        mkState buffers_only
          [cuFileBufDeregister 65536; cuMemFree (Some 65536);
           cuFileBufDeregister 131072; cuMemFree (Some 131072);
           cuFileDriverClose;
           cuFileBufDeregister 65536; cuMemFree (Some 65536);
           cuFileBufDeregister 131072; cuMemFree (Some 131072);
           cuFileDriverClose])
  /\ ~ NoDup (trace (snd ((cleanup nominal ;;; cleanup nominal)
                            (mkState full []))))
  /\ ~ NoDup (trace (snd ((cleanup nominal ;;; cleanup nominal)
                            (mkState buffers_only [])))).
Proof.
  assert (H1 : (cleanup nominal ;;; cleanup nominal) (mkState full []) = _)
    by (vm_compute; reflexivity).
  assert (H2 : (cleanup nominal ;;; cleanup nominal) (mkState buffers_only []) = _)
    by (vm_compute; reflexivity).
  rewrite H1, H2. split; [reflexivity|]. split; [reflexivity|]. split.
  - cbn. intros H. inversion H as [|c t Hn _]. apply Hn.
    do 8 right. left. reflexivity.
  - cbn. intros H. inversion H as [|c t Hn _]. apply Hn.
    do 4 right. left. reflexivity.
Qed.

(** C3, amended.  One [cleanup] whose close of the descriptor does not
    raise, on any session whose two buffer attributes do not hold the same
    pointer, and whatever subset of the resources was acquired, makes no
    release call twice, and it deregisters every buffer and the file
    handle that the session holds.  It assigns no attribute, so teardown is
    not idempotent: a second [cleanup] starts the same release calls over
    again, and makes them all unless the close of the descriptor raises,
    in which case it stops there with that [OSError]. *)
Theorem cleanup_once_no_double_release (E : Env) (s : State)
    (Hdistinct : forall p, dptr_w (self s) = Some p -> dptr_r (self s) <> Some p)
    (Hclose : closes_quietly E s) :
  let o := self s in
  let l := cleanup_calls o in
  let s1 := mkState o (trace s ++ l) in
  cleanup E s = (Ok tt, s1)
  /\ NoDup l
  /\ (forall p, dptr_w o = Some p \/ dptr_r o = Some p ->
                In (cuFileBufDeregister p) l)
  /\ (forall h, cf_handle o = Some h -> h <> 0 ->
                In (cuFileHandleDeregister (Some h)) l)
  /\ exists l2 l3,
       (cleanup E ;;; cleanup E) s
       = (fst (cleanup_outcome E s1), mkState o (trace s ++ l ++ l2))
       /\ l2 <> []
       /\ l = l2 ++ l3
       /\ (closes_quietly E s1 -> l2 = l /\ fst (cleanup_outcome E s1) = Ok tt).
Proof.
  intros o l s1.
  assert (Hrun : cleanup E s = (Ok tt, s1)) by (apply cleanup_completes, Hclose).
  split; [exact Hrun|].
  split; [|split; [|split]].
  - subst l. unfold cleanup_calls, handle_release, buffer_release.
    destruct (dptr_w o) as [pw|] eqn:Hw; destruct (dptr_r o) as [pr|] eqn:Hr.
    1: assert (pw <> pr) by (intros ->; exact (Hdistinct pr Hw Hr)).
    all: split_attrs;
      repeat (apply NoDup_cons; [cbn; intuition congruence|]); apply NoDup_nil.
  - intros p Hp. apply in_cleanup_calls. rewrite !in_buffer_release.
    destruct Hp as [Hp | Hp]; [right; right; left | right; right; right; left];
      eauto.
  - intros h Hh Hn. apply in_cleanup_calls. left. apply in_handle_release. eauto.
  - exists (snd (cleanup_outcome E s1)).
    assert (Hl2 : exists l3, l = snd (cleanup_outcome E s1) ++ l3
                             /\ snd (cleanup_outcome E s1) <> []
                             /\ (closes_quietly E s1 ->
                                 snd (cleanup_outcome E s1) = l
                                 /\ fst (cleanup_outcome E s1) = Ok tt)).
    { unfold cleanup_outcome, closes_quietly. change (self s1) with o.
      destruct (fd o) as [d|] eqn:Hd.
      - destruct (close_answer E s1 d) as [errno|] eqn:Hc; cbn [fst snd].
        + destruct (cleanup_calls_until_close_prefix o d Hd) as (l3 & Hl3).
          exists l3. split; [exact Hl3|]. split.
          * unfold cleanup_calls_until_close. intros Hnil.
            apply app_eq_nil in Hnil. destruct Hnil as [_ Hnil]. discriminate Hnil.
          * intros Hq. specialize (Hq d eq_refl). congruence.
        + exists []. rewrite app_nil_r. split; [reflexivity|]. split; [|auto].
          unfold l, cleanup_calls. rewrite !app_assoc. intros Hnil.
          apply app_eq_nil in Hnil. destruct Hnil as [_ Hnil]. discriminate Hnil.
      - cbn [fst snd]. exists []. rewrite app_nil_r. split; [reflexivity|].
        split; [|auto].
        unfold l, cleanup_calls. rewrite !app_assoc. intros Hnil.
        apply app_eq_nil in Hnil. destruct Hnil as [_ Hnil]. discriminate Hnil. }
    destruct Hl2 as (l3 & Hl3 & Hne & Hq). exists l3.
    split; [|auto].
    unfold bind. rewrite Hrun. rewrite cleanup_runs. unfold s1 at 2 3.
    cbn [self trace]. rewrite <- app_assoc. reflexivity.
Qed.

Lemma cleanup_once_no_double_release_witness :
  NoDup (cleanup_calls full)
  /\ cleanup nominal (mkState full []) = (Ok tt, mkState full (cleanup_calls full))
  /\ In (cuFileBufDeregister 131072) (cleanup_calls full).
Proof.
  assert (Hd : forall p, dptr_w (self (mkState full [])) = Some p ->
                         dptr_r (self (mkState full [])) <> Some p)
    by (cbn; intros p Hw Hr; rewrite <- Hw in Hr; discriminate Hr).
  assert (Hq : closes_quietly nominal (mkState full []))
    by (intros d Hfd; inversion Hfd; reflexivity).
  destruct (cleanup_once_no_double_release nominal (mkState full []) Hd Hq)
    as (Hrun & Hn & Hb & _ & _).
  split; [exact Hn|]. split; [exact Hrun|].
  apply Hb. right. reflexivity.
Defined.

(** C7, as stated.  The demo allocates both buffers and then raises in the
    call that should fill the write buffer, before it registers anything;
    [cleanup] deregisters both buffers all the same, though neither was
    ever passed to [cuFileBufRegister]. *)
Lemma unregistered_buffers_are_deregistered :
  fst (run_demo nominal "test_gds.bin" (mkState fresh [])) = Raise TypeError
  /\ In (cuFileBufDeregister 65536)
        (trace (snd (run_demo nominal "test_gds.bin" (mkState fresh []))))
  /\ In (cuFileBufDeregister 131072)
        (trace (snd (run_demo nominal "test_gds.bin" (mkState fresh []))))
  /\ registration_attempted
       (trace (snd (run_demo nominal "test_gds.bin" (mkState fresh []))))
       65536 = false
  /\ registration_attempted
       (trace (snd (run_demo nominal "test_gds.bin" (mkState fresh []))))
       131072 = false.
Proof.
  assert (H : run_demo nominal "test_gds.bin" (mkState fresh [])
              = (Raise TypeError,
                 mkState buffers_only
                   [cuMemAlloc 4096; cuMemAlloc 4096;
                    cuMemsetD8 (Some 65536) 171 4096;
                    cuFileBufDeregister 65536; cuMemFree (Some 65536);
                    cuFileBufDeregister 131072; cuMemFree (Some 131072);
                    cuFileDriverClose]))
    by (vm_compute; reflexivity).
  rewrite H. cbn [fst snd trace].
  split; [reflexivity|]. split; [cbn; tauto|]. split; [cbn; tauto|].
  split; reflexivity.
Qed.

(** C7, amended.  A [cleanup] that runs to its end deregisters a device
    buffer exactly when the attribute of the buffer holds its pointer,
    whether or not the driver ever registered it, and it frees the memory
    of a buffer only right after the deregistration call for that buffer;
    a [cleanup] cut short by the close of the descriptor touches no
    buffer. *)
Theorem buffer_deregistered_when_held (E : Env) (s : State) :
  let o := self s in
  let l := snd (cleanup_outcome E s) in
  cleanup E s = (fst (cleanup_outcome E s), mkState o (trace s ++ l))
  /\ (closes_quietly E s ->
      forall p, In (cuFileBufDeregister p) l
                <-> dptr_w o = Some p \/ dptr_r o = Some p)
  /\ (forall p, In (cuFileBufDeregister p) l ->
                dptr_w o = Some p \/ dptr_r o = Some p)
  /\ freed_after_deregister None l = true
  /\ (fst (cleanup_outcome E s) <> Ok tt ->
      forall c, In c l -> c <> cuFileDriverClose
                          /\ forall p, c <> cuFileBufDeregister p
                                       /\ c <> cuMemFree (Some p)).
Proof.
  intros o l. split; [apply cleanup_runs|].
  assert (Hiff : forall p, In (cuFileBufDeregister p) (cleanup_calls o)
                           <-> dptr_w o = Some p \/ dptr_r o = Some p).
  { intros p. rewrite in_cleanup_calls, in_handle_release, !in_buffer_release.
    split.
    - intros [(h' & Hv & Hn & Hc) | [(d' & Hv & Hc) | [(p' & Hv & [Hc | Hc])
        | [(p' & Hv & [Hc | Hc]) | [(a' & Hv & Hn & Hc) | [(x' & Hv & Hc) | Hc]]]]]];
        try discriminate Hc; inversion Hc; subst; auto.
    - intros [Hv | Hv]; [right; right; left | right; right; right; left]; eauto. }
  assert (Hcut : forall d c, In c (cleanup_calls_until_close o d) ->
                             c <> cuFileDriverClose
                             /\ forall p, c <> cuFileBufDeregister p
                                          /\ c <> cuMemFree (Some p)).
  { intros d c Hc.
    destruct (cleanup_calls_until_close_in_order o d) as (_ & _ & Hf).
    rewrite Forall_forall in Hf. specialize (Hf c Hc).
    destruct c; try destruct Hf; repeat split; discriminate. }
  subst l. unfold cleanup_outcome, closes_quietly.
  destruct (fd (self s)) as [d|] eqn:Hd;
    [destruct (close_answer E s d) as [errno|] eqn:Hc|]; cbn [fst snd].
  - destruct (cleanup_calls_until_close_in_order o d) as (_ & H2 & _).
    split; [intros Hq; specialize (Hq d eq_refl); congruence|].
    split; [|split; [exact H2|]].
    + intros p Hin. apply Hcut in Hin. destruct Hin as [_ Hin].
      destruct (Hin p) as [Hne _]. contradiction.
    + intros _ c Hin. exact (Hcut d c Hin).
  - destruct (cleanup_calls_in_order o) as (_ & H2 & _).
    split; [intros _; exact Hiff|]. split; [intros p; apply Hiff|].
    split; [exact H2|]. intros Hne. contradiction.
  - destruct (cleanup_calls_in_order o) as (_ & H2 & _).
    split; [intros _; exact Hiff|]. split; [intros p; apply Hiff|].
    split; [exact H2|]. intros Hne. contradiction.
Qed.

(** C10.  [open_file] assigns [self.fd] as soon as [os.open] has returned,
    before it asks the driver to register the file.  So whenever the file
    opens as descriptor [d] and the driver then refuses the registration,
    [open_file] raises the driver error with [self.fd] set to [d], and the
    [cleanup] that follows calls [os.close] on [d], after at most the
    deregistration of a handle the driver may have written. *)
Theorem descriptor_closed_when_registration_fails (E : Env)
    (filepath : string) (flags mode : Z) (s : State) (d : Z)
    (Hopen : os_open_ret E (trace s ++ [os_open filepath flags mode]) = inl d)
    (Hreg : err (fst (cuFileHandleRegister_ret E
                   ((trace s ++ [os_open filepath flags mode])
                    ++ [cuFileHandleRegister (mkCUfileDescr 1 d)]))) <> 0) :
  let r := open_file E filepath flags mode s in
  (exists e ce, fst r = Raise (RuntimeError (MsgCuFile "cuFileHandleRegister" e ce)))
  /\ trace (snd r) = (trace s ++ [os_open filepath flags mode])
                     ++ [cuFileHandleRegister (mkCUfileDescr 1 d)]
  /\ fd (self (snd r)) = Some d
  /\ In (os_close (Some d)) (cleanup_calls (self (snd r)))
  /\ exists l2,
       trace (snd (cleanup E (snd r)))
       = trace (snd r) ++ handle_release (self (snd r)) ++ os_close (Some d) :: l2.
Proof.
  intros r.
  assert (Hr : r = (Raise (RuntimeError (MsgCuFile "cuFileHandleRegister"
                      (err (fst (cuFileHandleRegister_ret E
                         ((trace s ++ [os_open filepath flags mode])
                          ++ [cuFileHandleRegister (mkCUfileDescr 1 d)]))))
                      (cu_err (fst (cuFileHandleRegister_ret E
                         ((trace s ++ [os_open filepath flags mode])
                          ++ [cuFileHandleRegister (mkCUfileDescr 1 d)])))))),
                    mkState (set_cf_handle
                               (Some (snd (cuFileHandleRegister_ret E
                                  ((trace s ++ [os_open filepath flags mode])
                                   ++ [cuFileHandleRegister (mkCUfileDescr 1 d)]))))
                               (set_cf_handle (Some 0) (set_fd (Some d) (self s))))
                            ((trace s ++ [os_open filepath flags mode])
                             ++ [cuFileHandleRegister (mkCUfileDescr 1 d)]))).
  { subst r. unfold open_file, _check_cufile. run. rewrite Hopen. cbn.
    apply Z.eqb_neq in Hreg. rewrite Hreg. reflexivity. }
  assert (Hfd : fd (self (snd r)) = Some d) by (rewrite Hr; reflexivity).
  split; [rewrite Hr; cbn; eauto|].
  split; [rewrite Hr; reflexivity|].
  split; [exact Hfd|].
  split; [apply in_cleanup_calls; right; left; eauto|].
  rewrite cleanup_runs. cbn [snd trace self]. unfold cleanup_outcome.
  rewrite Hfd.
  destruct (close_answer E (snd r) d); cbn [snd].
  - exists []. reflexivity.
  - unfold cleanup_calls. rewrite Hfd. cbn. eexists. reflexivity.
Qed.

Lemma descriptor_closed_when_registration_fails_witness :
  open_file no_file_handle "test_gds.bin" 16962 420 (mkState fresh [])
  = (Raise (RuntimeError (MsgCuFile "cuFileHandleRegister" 5022 0)),
     mkState (set_cf_handle (Some 0) (set_fd (Some 3) fresh))
             [os_open "test_gds.bin" 16962 420;
              cuFileHandleRegister (mkCUfileDescr 1 3)])
  /\ In (os_close (Some 3))
        (cleanup_calls (set_cf_handle (Some 0) (set_fd (Some 3) fresh))).
Proof.
  assert (Hw : open_file no_file_handle "test_gds.bin" 16962 420 (mkState fresh [])
               = (Raise (RuntimeError (MsgCuFile "cuFileHandleRegister" 5022 0)),
                  mkState (set_cf_handle (Some 0) (set_fd (Some 3) fresh))
                          [os_open "test_gds.bin" 16962 420;
                           cuFileHandleRegister (mkCUfileDescr 1 3)]))
    by (vm_compute; reflexivity).
  destruct (descriptor_closed_when_registration_fails no_file_handle
              "test_gds.bin" 16962 420 (mkState fresh []) 3 eq_refl
              ltac:(cbn; discriminate)) as (_ & _ & _ & Hin & _).
  rewrite Hw in Hin. split; [exact Hw | exact Hin].
Defined.

(** ** Verification *)

(** What [verify_buffer] returns once the host copy is staged at [a]. *)
Lemma verify_buffer_staged (E : Env) (s : State) (a : Z)
    (Hsize : 0 <= buffer_size (self s))
    (Halloc : cuMemAllocHost_ret E (trace s ++ [cuMemAllocHost (buffer_size (self s))])
              = Some a)
    (Hcopy : cuMemcpyDtoH_ret E (staged_trace s a) = 0) :
  fst (verify_buffer E s)
  = if existsb (fun b => negb (b =? pattern_byte (self s))) (staged_host_copy E s a)
    then Raise (RuntimeError MsgVerificationFailed)
    else Ok true.
Proof.
  unfold verify_buffer, from_address, _check_cuda, staged_host_copy, staged_trace in *.
  unfold size_t_call. run.
  destruct (buffer_size (self s) <? 0) eqn:Hneg; [apply Z.ltb_lt in Hneg; lia|].
  run. rewrite Halloc. cbn. rewrite Hneg. run. rewrite Hcopy. cbn.
  rewrite Hneg. cbn. destruct (existsb _ _); reflexivity.
Qed.

(** C5.  Once the read buffer is staged in host memory (the host
    allocation gave an address and the copy returned status 0),
    [verify_buffer] returns [True] if and only if every byte of the staged
    copy equals [pattern_byte]; as soon as one byte differs, in particular
    when a single byte at any offset is corrupted, it raises the
    verification error instead of returning. *)
Theorem verify_buffer_checks_every_byte (E : Env) (s : State) (a : Z)
    (Hsize : 0 <= buffer_size (self s))
    (Halloc : cuMemAllocHost_ret E (trace s ++ [cuMemAllocHost (buffer_size (self s))])
              = Some a)
    (Hcopy : cuMemcpyDtoH_ret E (staged_trace s a) = 0) :
  (fst (verify_buffer E s) = Ok true
   <-> Forall (fun b => b = pattern_byte (self s)) (staged_host_copy E s a))
  /\ (Exists (fun b => b <> pattern_byte (self s)) (staged_host_copy E s a)
      -> fst (verify_buffer E s) = Raise (RuntimeError MsgVerificationFailed))
  /\ (forall i, (i < Z.to_nat (buffer_size (self s)))%nat ->
                c_ubyte (host_memory E (staged_trace s a) a i) <> pattern_byte (self s) ->
                fst (verify_buffer E s) = Raise (RuntimeError MsgVerificationFailed)).
Proof.
  rewrite (verify_buffer_staged E s a Hsize Halloc Hcopy).
  assert (Hex : forall l : list Z,
             Exists (fun b => b <> pattern_byte (self s)) l ->
             existsb (fun b => negb (b =? pattern_byte (self s))) l = true).
  { intros l Hl. apply existsb_exists. apply Exists_exists in Hl.
    destruct Hl as (b & Hb & Hne). exists b. split; [exact Hb|].
    apply negb_true_iff, Z.eqb_neq. exact Hne. }
  split; [|split].
  - split.
    + intros Hok. apply Forall_forall. intros b Hb.
      destruct (Z.eq_dec b (pattern_byte (self s))) as [Heq | Hne]; [exact Heq|].
      rewrite Hex in Hok; [discriminate Hok|].
      apply Exists_exists. exists b. auto.
    + intros Hall.
      destruct (existsb _ _) eqn:Hx; [|reflexivity].
      apply existsb_exists in Hx. destruct Hx as (b & Hb & Hne).
      rewrite Forall_forall in Hall. apply Hall in Hb.
      apply negb_true_iff, Z.eqb_neq in Hne. contradiction.
  - intros Hl. rewrite (Hex _ Hl). reflexivity.
  - intros i Hi Hne. rewrite Hex; [reflexivity|].
    apply Exists_exists. eexists. split; [|exact Hne].
    unfold staged_host_copy. apply in_map_iff. exists i. split; [reflexivity|].
    apply in_seq. lia.
Qed.

Lemma verify_buffer_checks_every_byte_witness :
  fst (verify_buffer corrupted (mkState full []))
  = Raise (RuntimeError MsgVerificationFailed)
  /\ fst (verify_buffer nominal (mkState full [])) = Ok true.
Proof.
  split.
  - refine (proj2 (proj2 (verify_buffer_checks_every_byte corrupted
                            (mkState full []) 7340032 _ eq_refl eq_refl))
                  10%nat _ _).
    + cbn. lia.
    + apply Nat.ltb_lt. vm_compute. reflexivity.
    + vm_compute. discriminate.
  - apply (proj1 (verify_buffer_checks_every_byte nominal
                    (mkState full []) 7340032 ltac:(cbn; lia) eq_refl eq_refl)).
    apply Forall_forall. intros b Hb.
    unfold staged_host_copy in Hb. apply in_map_iff in Hb.
    destruct Hb as (i & <- & _). reflexivity.
Defined.

(** ** Transfers *)

Lemma cleanup_calls_no_transfer (o : PYGDS) :
  Forall (fun c => is_transfer c = false) (cleanup_calls o).
Proof.
  apply Forall_forall. intros c Hc. apply in_cleanup_calls in Hc.
  rewrite in_handle_release, !in_buffer_release in Hc.
  destruct Hc as [(h & _ & _ & ->) | [(d & _ & ->) | [(p & _ & [-> | ->])
    | [(p & _ & [-> | ->]) | [(a & _ & _ & ->) | [(x & _ & ->) | ->]]]]]];
    reflexivity.
Qed.

Lemma cleanup_outcome_no_transfer (E : Env) (s : State) :
  Forall (fun c => is_transfer c = false) (snd (cleanup_outcome E s)).
Proof.
  unfold cleanup_outcome.
  destruct (fd (self s)) as [d|]; [destruct (close_answer E s d)|]; cbn [snd];
    try apply cleanup_calls_no_transfer.
  unfold cleanup_calls_until_close, handle_release.
  split_attrs; repeat constructor.
Qed.

(** C1.  A transfer returns only when the byte count the driver reports
    equals [buffer_size]; on any other count, negative ones included,
    [write_buffer] and [read_buffer] raise the error that carries the count.
    In the sequence of [run_demo] a transfer that raised ends the sequence:
    a failed write is followed by no print and no read, a failed read by no
    verification; what runs after the sequence is [cleanup], which makes no
    transfer. *)
Theorem transfer_needs_full_count (E : Env) :
  (forall fo dv s r,
      fst (write_buffer E fo dv s) = Ok r ->
      exists p, dptr_w (self s) = Some p
                /\ write_reported E fo dv s p = buffer_size (self s))
  /\ (forall fo dv s p,
         dptr_w (self s) = Some p ->
         write_reported E fo dv s p <> buffer_size (self s) ->
         fst (write_buffer E fo dv s)
         = Raise (RuntimeError (MsgWriteReturned (write_reported E fo dv s p))))
  /\ (forall fo dv s r,
         fst (read_buffer E fo dv s) = Ok r ->
         exists p, dptr_r (self s) = Some p
                   /\ read_reported E fo dv s p = buffer_size (self s))
  /\ (forall fo dv s p,
         dptr_r (self s) = Some p ->
         read_reported E fo dv s p <> buffer_size (self s) ->
         fst (read_buffer E fo dv s)
         = Raise (RuntimeError (MsgReadReturned (read_reported E fo dv s p))))
  /\ (forall s1 e s2,
         write_buffer E 0 0 s1 = (Raise e, s2) ->
         run_demo_transfers E s1 = (Raise e, s2))
  /\ (forall s1 w s2 e s3,
         write_buffer E 0 0 s1 = (Ok w, s2) ->
         read_buffer E 0 0
           (mkState (self s2)
                    (trace s2 ++ [print (LineWrite (fst (fst w)) (snd (fst w)) (snd w))]))
         = (Raise e, s3) ->
         run_demo_transfers E s1 = (Raise e, s3))
  /\ (forall filepath,
         run_demo E filepath
         = try_finally
             (setup_buffers E ;;;
              open_file E filepath (default_flags E) default_mode ;;;
              run_demo_transfers E)
             (cleanup E))
  /\ (forall s, Forall (fun c => is_transfer c = false) (snd (cleanup_outcome E s))).
Proof.
  repeat match goal with |- _ /\ _ => split end.
  - intros fo dv s r. unfold write_buffer, transfer_result, write_reported. run.
    destruct (dptr_w (self s)) as [p|]; cbn; [|discriminate].
    rewrite <- !app_assoc. cbn.
    destruct (_ =? buffer_size (self s)) eqn:Hn; cbn; [|discriminate].
    intros _. exists p. split; [reflexivity|]. apply Z.eqb_eq. exact Hn.
  - intros fo dv s p Hp Hne. unfold write_buffer, write_reported in *. run.
    rewrite Hp. cbn. rewrite <- !app_assoc. cbn.
    apply Z.eqb_neq in Hne. rewrite Hne. reflexivity.
  - intros fo dv s r. unfold read_buffer, transfer_result, read_reported. run.
    destruct (dptr_r (self s)) as [p|]; cbn; [|discriminate].
    rewrite <- !app_assoc. cbn.
    destruct (_ =? buffer_size (self s)) eqn:Hn; cbn; [|discriminate].
    intros _. exists p. split; [reflexivity|]. apply Z.eqb_eq. exact Hn.
  - intros fo dv s p Hp Hne. unfold read_buffer, read_reported in *. run.
    rewrite Hp. cbn. rewrite <- !app_assoc. cbn.
    apply Z.eqb_neq in Hne. rewrite Hne. reflexivity.
  - intros s1 e s2 Hwrite. unfold run_demo_transfers, bind.
    rewrite Hwrite. reflexivity.
  - intros s1 w s2 e s3 Hwrite Hread. unfold run_demo_transfers, bind.
    rewrite Hwrite. cbv beta iota.
    unfold call_ at 1, call at 1. cbv beta iota zeta.
    rewrite Hread. reflexivity.
  - intros filepath. reflexivity.
  - apply cleanup_outcome_no_transfer.
Qed.

Lemma transfer_needs_full_count_witness :
  fst (write_buffer short_write 0 0 (mkState full []))
  = Raise (RuntimeError (MsgWriteReturned 512))
  /\ run_demo_transfers short_write (mkState full [])
     = (Raise (RuntimeError (MsgWriteReturned 512)),
        mkState full [perf_counter; cuFileWrite (Some 5000) 65536 4096 0 0;
                      perf_counter])
  /\ fst (read_buffer failed_read 0 0 (mkState full []))
     = Raise (RuntimeError (MsgReadReturned (-5)))
  /\ fst (run_demo_transfers failed_read (mkState full []))
     = Raise (RuntimeError (MsgReadReturned (-5))).
Proof.
  destruct (transfer_needs_full_count short_write)
    as (_ & Hw & _ & _ & Hseq & _).
  destruct (transfer_needs_full_count failed_read)
    as (_ & _ & _ & Hr & _ & Hseq2 & _).
  split; [|split; [|split]].
  - apply (Hw 0 0 (mkState full []) 65536); [reflexivity | vm_compute; discriminate].
  - apply Hseq. vm_compute. reflexivity.
  - apply (Hr 0 0 (mkState full []) 131072); [reflexivity | vm_compute; discriminate].
  - pose (w := ((4096 # 1000000)%Q, (2000 # 1)%Q, (4096 # 2000000000)%Q)).
    pose (s2 := mkState full [perf_counter;
                              cuFileWrite (Some 5000) 65536 4096 0 0;
                              perf_counter]).
    rewrite (Hseq2 (mkState full []) w s2
               (RuntimeError (MsgReadReturned (-5)))
               (mkState full
                  (trace s2
                   ++ [print (LineWrite (4096 # 1000000) (2000 # 1)
                                        (4096 # 2000000000));
                       perf_counter;
                       cuFileRead (Some 5000) 131072 4096 0 0;
                       perf_counter]))).
    + reflexivity.
    + vm_compute. reflexivity.
    + vm_compute. reflexivity.
Defined.

(** ** What a method keeps and what it calls *)

(** Every call of a [cleanup], cut short or not, is one of [cleanup_calls]. *)
Lemma cleanup_outcome_in_cleanup_calls (E : Env) (s : State) (c : Call) :
  In c (snd (cleanup_outcome E s)) -> In c (cleanup_calls (self s)).
Proof.
  unfold cleanup_outcome. destruct (fd (self s)) as [d|] eqn:Hd; [|auto].
  destruct (close_answer E s d); [|auto]. cbn [snd].
  destruct (cleanup_calls_until_close_prefix (self s) d Hd) as (l3 & ->).
  intros Hc. apply in_app_iff. left. exact Hc.
Qed.

Section Respects.

Variable I : PYGDS -> Prop.
Variable P : Call -> bool.

Lemma respects_ret {A} (a : A) : respects I P (ret a).
Proof. intros s Hs. split; [exact Hs|]. exists []. rewrite app_nil_r. auto. Qed.

Lemma respects_raise {A} (e : Exn) : respects I P (@raise A e).
Proof. intros s Hs. split; [exact Hs|]. exists []. rewrite app_nil_r. auto. Qed.

Lemma respects_attr {A} (f : PYGDS -> A) : respects I P (attr f).
Proof. intros s Hs. split; [exact Hs|]. exists []. rewrite app_nil_r. auto. Qed.

Lemma respects_modify (f : PYGDS -> PYGDS) :
  (forall o, I o -> I (f o)) -> respects I P (modify f).
Proof.
  intros Hf s Hs. split; [apply Hf, Hs|]. exists []. cbn. rewrite app_nil_r. auto.
Qed.

Lemma respects_call {A} (c : Call) (answer : list Call -> A) :
  P c = true -> respects I P (call c answer).
Proof.
  intros Hc s Hs. split; [exact Hs|]. exists [c]. cbn. rewrite Hc. auto.
Qed.

Lemma respects_raising_call {A} (c : Call) (e : Exn) :
  P c = true -> respects I P (@raising_call A c e).
Proof.
  intros Hc s Hs. split; [exact Hs|]. exists [c]. cbn. rewrite Hc. auto.
Qed.

Lemma respects_bind {A B} (m : M A) (k : A -> M B) :
  respects I P m -> (forall a, respects I P (k a)) -> respects I P (bind m k).
Proof.
  intros Hm Hk s Hs. unfold bind.
  destruct (Hm s Hs) as (Hi & l & Ht & Hl).
  destruct (m s) as [[a | e] s1]; cbn in *.
  - destruct (Hk a s1 Hi) as (Hi2 & l2 & Ht2 & Hl2).
    split; [exact Hi2|]. exists (l ++ l2).
    rewrite Ht2, Ht, app_assoc, forallb_app, Hl, Hl2. auto.
  - split; [exact Hi|]. exists l. auto.
Qed.

Lemma respects_if {A} (b : bool) (m1 m2 : M A) :
  respects I P m1 -> respects I P m2 -> respects I P (if b then m1 else m2).
Proof. destruct b; auto. Qed.

Lemma respects_for_each {A} (l : list A) (body : A -> M unit) :
  (forall x, respects I P (body x)) -> respects I P (for_each l body).
Proof.
  intros Hb. induction l as [|x l IH]; cbn.
  - apply respects_ret.
  - apply respects_bind; auto.
Qed.

Lemma respects_try_finally {A} (body : M A) (fin : M unit) :
  respects I P body -> respects I P fin -> respects I P (try_finally body fin).
Proof.
  intros Hb Hf s Hs. unfold try_finally.
  destruct (Hb s Hs) as (Hi & l & Ht & Hl).
  destruct (body s) as [r s1]; cbn in *.
  destruct (Hf s1 Hi) as (Hi2 & l2 & Ht2 & Hl2).
  destruct (fin s1) as [[u | e] s2]; cbn in *;
    (split; [exact Hi2|]; exists (l ++ l2);
     rewrite Ht2, Ht, app_assoc, forallb_app, Hl, Hl2; auto).
Qed.

End Respects.

Ltac respects_step :=
  first [ apply respects_ret
        | apply respects_raise
        | apply respects_attr
        | apply respects_call; reflexivity
        | apply respects_raising_call; reflexivity
        | apply respects_modify; intros ? ?; assumption
        | apply respects_for_each; intros ?
        | apply respects_bind; [|intros ?]
        | apply respects_if
        | match goal with
          | |- respects _ _ (match ?v with _ => _ end) => destruct v
          end ].

Ltac respects_auto := repeat respects_step.

Section NoContextDestroy.

Variable E : Env.

Lemma setup_buffers_no_destroy : respects no_ctx not_destroy (setup_buffers E).
Proof.
  unfold setup_buffers, size_t_call, cuMemsetD8_of_c_ubyte, _check_cufile,
    call_, int_.
  respects_auto.
Qed.

Lemma open_file_no_destroy (filepath : string) (flags mode : Z) :
  respects no_ctx not_destroy (open_file E filepath flags mode).
Proof. unfold open_file, _check_cufile, int_. respects_auto. Qed.

Lemma write_buffer_no_destroy (fo dv : Z) :
  respects no_ctx not_destroy (write_buffer E fo dv).
Proof. unfold write_buffer, transfer_result, int_. respects_auto. Qed.

Lemma read_buffer_no_destroy (fo dv : Z) :
  respects no_ctx not_destroy (read_buffer E fo dv).
Proof. unfold read_buffer, transfer_result, int_. respects_auto. Qed.

Lemma verify_buffer_no_destroy : respects no_ctx not_destroy (verify_buffer E).
Proof.
  unfold verify_buffer, size_t_call, from_address, _check_cuda, int_.
  respects_auto.
  intros s Hs. split; [exact Hs|]. exists []. cbn. rewrite app_nil_r. auto.
Qed.

Lemma cleanup_calls_no_destroy (o : PYGDS) :
  no_ctx o -> forallb not_destroy (cleanup_calls o) = true.
Proof.
  intros Hs. apply forallb_forall. intros c Hc. apply in_cleanup_calls in Hc.
  rewrite in_handle_release, !in_buffer_release in Hc.
  unfold no_ctx in Hs. rewrite Hs in Hc.
  destruct Hc as [(h & _ & _ & ->) | [(d & _ & ->) | [(p & _ & [-> | ->])
    | [(p & _ & [-> | ->]) | [(a & _ & _ & ->) | [(x & Ht & _) | ->]]]]]];
    try reflexivity; discriminate Ht.
Qed.

Lemma cleanup_no_destroy : respects no_ctx not_destroy (cleanup E).
Proof.
  intros s Hs. rewrite cleanup_runs. cbn. split; [exact Hs|].
  exists (snd (cleanup_outcome E s)). split; [reflexivity|].
  apply forallb_forall. intros c Hc.
  apply cleanup_outcome_in_cleanup_calls in Hc.
  revert c Hc. apply forallb_forall. apply cleanup_calls_no_destroy, Hs.
Qed.

Lemma run_demo_transfers_no_destroy :
  respects no_ctx not_destroy (run_demo_transfers E).
Proof.
  unfold run_demo_transfers.
  apply respects_bind; [apply write_buffer_no_destroy | intros w].
  apply respects_bind; [unfold call_; respects_auto | intros _].
  apply respects_bind; [apply read_buffer_no_destroy | intros r].
  apply respects_bind; [unfold call_; respects_auto | intros _].
  apply respects_bind; [apply verify_buffer_no_destroy | intros ok].
  unfold when, call_. respects_auto.
Qed.

Lemma run_demo_no_destroy (filepath : string) :
  respects no_ctx not_destroy (run_demo E filepath).
Proof.
  unfold run_demo. apply respects_try_finally; [|apply cleanup_no_destroy].
  apply respects_bind; [apply setup_buffers_no_destroy | intros _].
  apply respects_bind; [apply open_file_no_destroy | intros _].
  apply run_demo_transfers_no_destroy.
Qed.

Lemma init_no_destroy (size pat : Z) :
  respects (fun _ => True) not_destroy (__init__ E size pat).
Proof.
  unfold __init__, _initialize_cuda, _initialize_cufile, _check_cuda, _check_cufile.
  respects_auto; auto.
Qed.

End NoContextDestroy.

(** No run of the program destroys a context, whatever the world answers. *)
Lemma main_never_destroys_context (E : Env) (s : State) :
  exists l, trace (snd (main E s)) = trace s ++ l /\ forallb not_destroy l = true.
Proof.
  unfold main.
  destruct (init_no_destroy E (4 * 1024) 171 (mkState blank (trace s)) Logic.I)
    as (_ & l & Ht & Hl).
  assert (Hctx : forall s', __init__ E (4 * 1024) 171 (mkState blank (trace s))
                            = (Ok tt, s') -> ctx (self s') = None).
  { intros s'. unfold __init__, _initialize_cuda, _initialize_cufile,
      _check_cuda, _check_cufile. run.
    split_tests; intros H; inversion H; reflexivity. }
  destruct (__init__ E (4 * 1024) 171 (mkState blank (trace s))) as [[[] | e] s'];
    cbn in Ht.
  - destruct (run_demo_no_destroy E "test_gds.bin" s' (Hctx s' eq_refl))
      as (_ & l2 & Ht2 & Hl2).
    exists (l ++ l2). rewrite Ht2, Ht, app_assoc, forallb_app, Hl, Hl2. auto.
  - exists l. auto.
Qed.

(** C4.  The constructor creates a context and then sets [self.ctx] back to
    [None]: for every session constructed successfully the context was
    created, the session does not hold it, and neither [cleanup] nor
    [run_demo] ever calls [cuCtxDestroy].  The context is destroyed zero
    times, not once. *)
Theorem constructed_context_never_destroyed (E : Env) (size pat : Z)
    (s s' : State) (Hinit : __init__ E size pat s = (Ok tt, s')) :
  (exists d, trace s' = trace s ++ [cuInit 0; cuDeviceGet 0; cuCtxCreate 0 d;
                                    CDLL "libcufile.so"; cuFileDriverOpen])
  /\ ctx (self s') = None
  /\ forallb not_destroy (cleanup_calls (self s')) = true
  /\ (forall filepath,
         exists l, trace (snd (run_demo E filepath s')) = trace s' ++ l
                   /\ forallb not_destroy l = true).
Proof.
  assert (H : (exists d, trace s' = trace s ++ [cuInit 0; cuDeviceGet 0;
                 cuCtxCreate 0 d; CDLL "libcufile.so"; cuFileDriverOpen])
              /\ ctx (self s') = None).
  { revert Hinit. unfold __init__, _initialize_cuda, _initialize_cufile,
      _check_cuda, _check_cufile. run.
    split_tests; intros H; inversion H; cbn; rewrite <- ?app_assoc; cbn;
      split; eauto. }
  destruct H as [Ht Hc]. split; [exact Ht|]. split; [exact Hc|]. split.
  - apply cleanup_calls_no_destroy, Hc.
  - intros filepath. apply (run_demo_no_destroy E filepath s' Hc).
Qed.

Lemma constructed_context_never_destroyed_witness :
  ctx (self (snd (__init__ nominal 4096 171 (mkState blank [])))) = None
  /\ existsb is_ctx_create
       (trace (snd (__init__ nominal 4096 171 (mkState blank [])))) = true
  /\ existsb is_ctx_destroy (trace (snd (main nominal (mkState blank [])))) = false.
Proof.
  destruct (constructed_context_never_destroyed nominal 4096 171
              (mkState blank [])
              (snd (__init__ nominal 4096 171 (mkState blank [])))
              eq_refl) as ((d & Ht) & Hc & _ & _).
  split; [exact Hc|]. split.
  - rewrite Ht. reflexivity.
  - vm_compute. reflexivity.
Defined.

(** * Further properties of the methods *)

(** ** Construction *)

(** X1.  [_initialize_cuda] checks the result of [cuInit] and nothing else:
    it raises exactly when [cuInit] returns a nonzero code, with that code
    in the message and without asking for a device or a context; when
    [cuInit] returns 0 it returns normally whatever [cuDeviceGet] and
    [cuCtxCreate] give, stores both results, [None] included, and creates
    the context on the device it has just stored. *)
Theorem initialize_cuda_checks_only_cuInit (E : Env) (s : State) :
  (fst (_initialize_cuda E s) = Ok tt <-> cuInit_answer E s = 0)
  /\ (cuInit_answer E s <> 0 ->
      _initialize_cuda E s
      = (Raise (RuntimeError (MsgCuda "cuInit failed" (cuInit_answer E s))),
         mkState (self s) (trace s ++ [cuInit 0])))
  /\ (cuInit_answer E s = 0 ->
      _initialize_cuda E s
      = (Ok tt,
         mkState (set_ctx (context_answer E s)
                          (set_device (device_answer E s) (self s)))
                 (trace s ++ [cuInit 0; cuDeviceGet 0;
                              cuCtxCreate 0 (device_answer E s)]))).
Proof.
  unfold cuInit_answer, context_answer, device_answer.
  unfold _initialize_cuda, _check_cuda. run.
  destruct (cuInit_ret E (trace s ++ [cuInit 0]) =? 0) eqn:He; cbn;
    rewrite <- ?app_assoc; cbn.
  - apply Z.eqb_eq in He. repeat split; auto. intros H. contradiction.
  - apply Z.eqb_neq in He. repeat split; try discriminate; auto;
      intros H; contradiction.
Qed.

Lemma initialize_cuda_checks_only_cuInit_witness :
  fst (_initialize_cuda (startup_world 100 None status_ok) (mkState blank []))
  = Raise (RuntimeError (MsgCuda "cuInit failed" 100))
  /\ trace (snd (_initialize_cuda (startup_world 100 None status_ok)
                   (mkState blank []))) = [cuInit 0]
  /\ ctx (self (snd (_initialize_cuda nominal (mkState blank [])))) = Some 1000.
Proof.
  destruct (initialize_cuda_checks_only_cuInit
              (startup_world 100 None status_ok) (mkState blank []))
    as (_ & Hfail & _).
  destruct (initialize_cuda_checks_only_cuInit nominal (mkState blank []))
    as (_ & _ & Hok).
  rewrite Hfail by (vm_compute; discriminate).
  rewrite Hok by reflexivity.
  repeat split.
Defined.

(** X2.  [_initialize_cufile] has three outcomes.  When the library does
    not load it raises [OSError], leaves [libcufile] unset and never opens
    the driver.  When the driver opens with a nonzero status it raises the
    error that carries both codes of the status, with the library loaded.
    Otherwise it returns normally after exactly the two calls. *)
Theorem initialize_cufile_outcomes (E : Env) (s : State) :
  _initialize_cufile E s
  = match load_answer E s with
    | Some errno =>
        (Raise (OSError errno), mkState (self s) (trace s ++ [CDLL "libcufile.so"]))
    | None =>
        (if err (driver_open_answer E s) =? 0
         then Ok tt
         else Raise (RuntimeError (MsgCuFile "cuFileDriverOpen"
                                     (err (driver_open_answer E s))
                                     (cu_err (driver_open_answer E s)))),
         mkState (set_libcufile true (self s))
                 (trace s ++ [CDLL "libcufile.so"; cuFileDriverOpen]))
    end.
Proof.
  unfold load_answer, driver_open_answer, _initialize_cufile, _check_cufile. run.
  rewrite <- ?app_assoc. cbn.
  destruct (CDLL_ret E (trace s ++ [CDLL "libcufile.so"])); cbn; [reflexivity|].
  rewrite <- ?app_assoc. cbn.
  destruct (err _ =? 0); reflexivity.
Qed.

(** The constructor in closed form. *)
Lemma init_closed_form (E : Env) (size pat : Z) (s : State) :
  __init__ E size pat s
  = if cuInit_answer E s =? 0
    then match load_answer E (after_cuda E s) with
         | Some errno =>
             (Raise (OSError errno),
              mkState (set_ctx (context_answer E s)
                         (set_device (device_answer E s)
                            (set_pattern_byte pat (set_buffer_size size (self s)))))
                      (trace s ++ firstn 4 (constructor_calls (device_answer E s))))
         | None =>
             if err (driver_open_answer E (after_cuda E s)) =? 0
             then (Ok tt,
                   mkState (mkPYGDS size pat true None None None None None None None)
                           (trace s ++ constructor_calls (device_answer E s)))
             else (Raise (RuntimeError
                            (MsgCuFile "cuFileDriverOpen"
                               (err (driver_open_answer E (after_cuda E s)))
                               (cu_err (driver_open_answer E (after_cuda E s))))),
                   mkState (set_libcufile true
                              (set_ctx (context_answer E s)
                                 (set_device (device_answer E s)
                                    (set_pattern_byte pat
                                       (set_buffer_size size (self s))))))
                           (trace s ++ constructor_calls (device_answer E s)))
         end
    else (Raise (RuntimeError (MsgCuda "cuInit failed" (cuInit_answer E s))),
          mkState (set_pattern_byte pat (set_buffer_size size (self s)))
                  (trace s ++ [cuInit 0])).
Proof.
  unfold cuInit_answer, load_answer, driver_open_answer, context_answer,
    device_answer, after_cuda, constructor_calls.
  unfold __init__, _initialize_cuda, _initialize_cufile, _check_cuda, _check_cufile.
  run.
  destruct (cuInit_ret E (trace s ++ [cuInit 0]) =? 0); cbn;
    rewrite <- ?app_assoc; cbn; [|reflexivity].
  destruct (CDLL_ret E _); cbn; rewrite <- ?app_assoc; cbn; [reflexivity|].
  destruct (err _ =? 0); cbn; reflexivity.
Qed.

(** X3.  The constructor returns normally exactly when [cuInit] returns 0,
    the library loads and the driver opens with status 0; what
    [cuDeviceGet] and [cuCtxCreate] give is never checked.  The session it
    then leaves holds the two arguments, the loaded library and [None] in
    every handle attribute, after exactly the five startup calls. *)
Theorem constructor_succeeds_iff (E : Env) (size pat : Z) (s : State) :
  (fst (__init__ E size pat s) = Ok tt
   <-> cuInit_answer E s = 0
       /\ load_answer E (after_cuda E s) = None
       /\ err (driver_open_answer E (after_cuda E s)) = 0)
  /\ (fst (__init__ E size pat s) = Ok tt ->
      snd (__init__ E size pat s)
      = mkState (mkPYGDS size pat true None None None None None None None)
                (trace s ++ constructor_calls (device_answer E s))).
Proof.
  rewrite init_closed_form.
  destruct (cuInit_answer E s =? 0) eqn:Hi.
  - apply Z.eqb_eq in Hi.
    destruct (load_answer E (after_cuda E s)) as [errno|].
    + cbn. split; [split|]; try discriminate. intros (_ & H & _). discriminate H.
    + destruct (err (driver_open_answer E (after_cuda E s)) =? 0) eqn:Hd; cbn.
      * apply Z.eqb_eq in Hd. repeat split; auto.
      * apply Z.eqb_neq in Hd. split; [split|]; try discriminate.
        intros (_ & _ & H). contradiction.
  - apply Z.eqb_neq in Hi. cbn. split; [split|]; try discriminate.
    intros (H & _). contradiction.
Qed.

Lemma constructor_succeeds_iff_witness :
  fst (__init__ nominal 4096 171 (mkState blank [])) = Ok tt
  /\ self (snd (__init__ nominal 4096 171 (mkState blank []))) = fresh.
Proof.
  destruct (constructor_succeeds_iff nominal 4096 171 (mkState blank []))
    as (Hiff & Hpost).
  assert (Hok : fst (__init__ nominal 4096 171 (mkState blank [])) = Ok tt).
  { apply Hiff. repeat split. }
  split; [exact Hok|]. rewrite (Hpost Hok). reflexivity.
Defined.

(** X4.  Whatever the world answers, the calls of the constructor are the
    first one, the first four or all five of the startup calls, in their
    order, and all five when it returns normally: the driver is opened only
    after the context was created, and a constructor that raises after it
    created the context releases nothing. *)
Theorem constructor_releases_nothing (E : Env) (size pat : Z) (s : State) :
  exists k,
    (k = 1 \/ k = 4 \/ k = 5)%nat
    /\ trace (snd (__init__ E size pat s))
       = trace s ++ firstn k (constructor_calls (device_answer E s))
    /\ (fst (__init__ E size pat s) = Ok tt -> k = 5%nat)
    /\ forallb not_release (firstn k (constructor_calls (device_answer E s))) = true.
Proof.
  rewrite init_closed_form.
  destruct (cuInit_answer E s =? 0).
  - destruct (load_answer E (after_cuda E s)) as [errno|].
    + exists 4%nat. cbn. repeat split; auto. discriminate.
    + exists 5%nat.
      destruct (err (driver_open_answer E (after_cuda E s)) =? 0);
        cbn; repeat split; auto.
  - exists 1%nat. cbn. repeat split; auto. discriminate.
Qed.

(** ** Buffers *)

(** [setup_buffers] never returns: the fill call raises, or, with a
    negative size, the first allocation does. *)
Lemma setup_buffers_raises (E : Env) (s : State) :
  setup_buffers E s
  = (Raise (if buffer_size (self s) <? 0 then OverflowError else TypeError),
     setup_buffers_stops E s).
Proof.
  unfold setup_buffers_stops, buffers_allocated, write_pointer, read_pointer.
  unfold setup_buffers, size_t_call, cuMemsetD8_of_c_ubyte. run.
  destruct (buffer_size (self s) <? 0) eqn:Hneg; [reflexivity|].
  run. rewrite Hneg. run. rewrite <- ?app_assoc. reflexivity.
Qed.



(** ** The file *)

(** X8.  When [os.open] fails, [open_file] raises its [OSError] after that
    one call: the session is unchanged ([fd] and [cf_handle] are what they
    were) and the driver is not asked to register anything. *)
Theorem open_file_os_error (E : Env) (filepath : string) (flags mode : Z)
    (s : State) (errno : Z)
    (Hopen : open_answer E filepath flags mode s = inr errno) :
  open_file E filepath flags mode s
  = (Raise (OSError errno),
     mkState (self s) (trace s ++ [os_open filepath flags mode])).
Proof.
  unfold open_answer in Hopen. unfold open_file. run. rewrite Hopen. reflexivity.
Qed.

Lemma open_file_os_error_witness :
  open_file no_permission "test_gds.bin" 16962 420 (mkState fresh [])
  = (Raise (OSError 13), mkState fresh [os_open "test_gds.bin" 16962 420]).
Proof.
  exact (open_file_os_error no_permission "test_gds.bin" 16962 420
           (mkState fresh []) 13 eq_refl).
Defined.

(** X9.  When the file opens as descriptor [d], [open_file] makes exactly
    two calls, the second registering a descriptor of type 1 that holds
    [d]; whether or not the driver accepts it, the session afterwards holds
    [d] in [fd] and the handle the driver wrote in [cf_handle], nothing
    else is assigned, and the method returns normally exactly when the
    status of the registration is 0. *)
Theorem open_file_registers_descriptor (E : Env) (filepath : string)
    (flags mode : Z) (s : State) (d : Z)
    (Hopen : open_answer E filepath flags mode s = inl d) :
  snd (open_file E filepath flags mode s)
  = mkState (set_cf_handle (Some (snd (handle_answer E filepath flags mode s d)))
               (set_fd (Some d) (self s)))
            (trace s ++ [os_open filepath flags mode;
                         cuFileHandleRegister (mkCUfileDescr 1 d)])
  /\ (fst (open_file E filepath flags mode s) = Ok tt
      <-> err (fst (handle_answer E filepath flags mode s d)) = 0).
Proof.
  unfold open_answer, handle_answer in *. unfold open_file, _check_cufile. run.
  rewrite Hopen. cbn. rewrite <- ?app_assoc. cbn.
  destruct (err _ =? 0) eqn:He; cbn.
  - apply Z.eqb_eq in He. repeat split; auto.
  - apply Z.eqb_neq in He. repeat split; try discriminate. intros H. contradiction.
Qed.

Lemma open_file_registers_descriptor_witness :
  open_file nominal "test_gds.bin" 16962 420 (mkState fresh [])
  = (Ok tt,
     mkState (set_cf_handle (Some 5000) (set_fd (Some 3) fresh))
             [os_open "test_gds.bin" 16962 420;
              cuFileHandleRegister (mkCUfileDescr 1 3)]).
Proof.
  destruct (open_file_registers_descriptor nominal "test_gds.bin" 16962 420
              (mkState fresh []) 3 eq_refl) as [Hs Hr].
  rewrite (surjective_pairing (open_file _ _ _ _ _)).
  rewrite Hs, (proj2 Hr eq_refl). reflexivity.
Defined.

(** ** Transfers *)

(** X10.  Called on a session whose buffer is not set up ([dptr_w], for a
    read [dptr_r], is [None]), a transfer raises [TypeError] after reading
    the clock once and never calls the driver. *)
Theorem transfer_before_setup_is_TypeError (E : Env) (fo dv : Z) (s : State) :
  (dptr_w (self s) = None ->
   write_buffer E fo dv s
   = (Raise TypeError, mkState (self s) (trace s ++ [perf_counter])))
  /\ (dptr_r (self s) = None ->
      read_buffer E fo dv s
      = (Raise TypeError, mkState (self s) (trace s ++ [perf_counter]))).
Proof.
  unfold write_buffer, read_buffer. run.
  split; intros H; rewrite H; reflexivity.
Qed.

Lemma transfer_before_setup_is_TypeError_witness :
  write_buffer nominal 0 0 (mkState fresh [])
  = (Raise TypeError, mkState fresh [perf_counter])
  /\ read_buffer nominal 0 0 (mkState fresh [])
     = (Raise TypeError, mkState fresh [perf_counter]).
Proof.
  destruct (transfer_before_setup_is_TypeError nominal 0 0 (mkState fresh []))
    as [Hw Hr].
  split; [exact (Hw eq_refl) | exact (Hr eq_refl)].
Defined.

(** X11.  A transfer on a session whose buffer is set up makes exactly
    three calls, whether it then returns or raises: it reads the clock,
    calls the driver once, [cuFileWrite] on the write buffer and
    [cuFileRead] on the read buffer, with the handle of the session, the
    full [buffer_size] and the two offsets it was given, and reads the
    clock again.  A short count is never retried. *)
Theorem transfer_is_one_driver_call (E : Env) (fo dv : Z) (s : State) (p : Z) :
  (dptr_w (self s) = Some p ->
   snd (write_buffer E fo dv s)
   = mkState (self s)
             (trace s ++ [perf_counter;
                          cuFileWrite (cf_handle (self s)) p
                                      (buffer_size (self s)) fo dv;
                          perf_counter]))
  /\ (dptr_r (self s) = Some p ->
      snd (read_buffer E fo dv s)
      = mkState (self s)
                (trace s ++ [perf_counter;
                             cuFileRead (cf_handle (self s)) p
                                        (buffer_size (self s)) fo dv;
                             perf_counter])).
Proof.
  unfold write_buffer, read_buffer, transfer_result. run.
  split; intros H; rewrite H; cbn; rewrite <- ?app_assoc; cbn;
    split_tests; reflexivity.
Qed.

Lemma transfer_is_one_driver_call_witness :
  trace (snd (write_buffer short_write 7 9 (mkState full [])))
  = [perf_counter; cuFileWrite (Some 5000) 65536 4096 7 9; perf_counter]
  /\ trace (snd (read_buffer nominal 7 9 (mkState full [])))
     = [perf_counter; cuFileRead (Some 5000) 131072 4096 7 9; perf_counter].
Proof.
  destruct (transfer_is_one_driver_call short_write 7 9 (mkState full []) 65536)
    as [Hw _].
  destruct (transfer_is_one_driver_call nominal 7 9 (mkState full []) 131072)
    as [_ Hr].
  rewrite (Hw eq_refl), (Hr eq_refl). split; reflexivity.
Defined.

(** X12.  When the driver reports the full count but the second clock
    reading equals the first, [write_buffer] raises [ZeroDivisionError]
    instead of returning: the bandwidth divides by the elapsed time. *)
Theorem transfer_in_no_time_divides_by_zero (E : Env) (fo dv : Z) (s : State)
    (p : Z)
    (Hp : dptr_w (self s) = Some p)
    (Hfull : write_reported E fo dv s p = buffer_size (self s))
    (Hclock : Qeq (clock_after E s (cuFileWrite (cf_handle (self s)) p
                                       (buffer_size (self s)) fo dv))
                  (clock_before E s)) :
  fst (write_buffer E fo dv s) = Raise ZeroDivisionError.
Proof.
  unfold write_reported, clock_after, clock_before in *.
  unfold write_buffer, transfer_result. run. rewrite Hp. cbn.
  rewrite <- ?app_assoc. cbn. rewrite Hfull, Z.eqb_refl. cbn.
  match goal with
  | |- context [Qeq_bool ?d 0] =>
      assert (Hz : Qeq_bool d 0 = true)
  end.
  { apply Qeq_bool_iff. rewrite Hclock. ring. }
  rewrite Hz. reflexivity.
Qed.

Lemma transfer_in_no_time_divides_by_zero_witness :
  fst (write_buffer frozen_clock 0 0 (mkState full []))
  = Raise ZeroDivisionError.
Proof.
  apply (transfer_in_no_time_divides_by_zero frozen_clock 0 0 (mkState full [])
           65536);
    reflexivity.
Defined.

(** ** Verification *)


Theorem verify_buffer_empty_passes (E : Env) (s : State) (a : Z)
    (Hsize : buffer_size (self s) = 0)
    (Halloc : host_answer E s = Some a)
    (Hcopy : copy_answer E s = 0) :
  fst (verify_buffer E s) = Ok true.
Proof.
  unfold copy_answer in Hcopy. rewrite Halloc in Hcopy. unfold host_answer in Halloc.
  rewrite (verify_buffer_staged E s a); unfold staged_host_copy, staged_trace.
  - rewrite Hsize. reflexivity.
  - lia.
  - exact Halloc.
  - rewrite <- app_assoc. exact Hcopy.
Qed.

Lemma verify_buffer_empty_passes_witness :
  fst (verify_buffer corrupted (mkState empty_session [])) = Ok true.
Proof.
  exact (verify_buffer_empty_passes corrupted (mkState empty_session [])
           7340032 eq_refl eq_refl eq_refl).
Defined.


(** X15.  The bytes read back lie between 0 and 255 and are compared with
    [pattern_byte] as it was given, not modulo 256 as [setup_buffers] hands
    it to the fill.  So with a [pattern_byte] below 0 or above 255 and a buffer that is
    not empty, a staged [verify_buffer] always raises the verification
    error, even when the data came back intact. *)
Theorem verify_buffer_wide_pattern_fails (E : Env) (s : State) (a : Z)
    (Hsize : 0 < buffer_size (self s))
    (Hpat : pattern_byte (self s) < 0 \/ 255 < pattern_byte (self s))
    (Halloc : host_answer E s = Some a)
    (Hcopy : copy_answer E s = 0) :
  fst (verify_buffer E s) = Raise (RuntimeError MsgVerificationFailed).
Proof.
  unfold copy_answer in Hcopy. rewrite Halloc in Hcopy. unfold host_answer in Halloc.
  rewrite (verify_buffer_staged E s a);
    [| lia | exact Halloc | unfold staged_trace; rewrite <- app_assoc; exact Hcopy].
  assert (Hx : existsb (fun b => negb (b =? pattern_byte (self s)))
                       (staged_host_copy E s a) = true).
  { apply existsb_exists.
    exists (c_ubyte (host_memory E (staged_trace s a) a 0%nat)). split.
    - unfold staged_host_copy. apply in_map_iff. exists 0%nat.
      split; [reflexivity|]. apply in_seq. lia.
    - apply negb_true_iff, Z.eqb_neq. unfold c_ubyte.
      pose proof (Z.mod_pos_bound (host_memory E (staged_trace s a) a 0%nat) 256
                    ltac:(lia)). lia. }
  rewrite Hx. reflexivity.
Qed.

Lemma verify_buffer_wide_pattern_fails_witness :
  c_ubyte (pattern_byte wide_pattern_session) = 171
  /\ fst (verify_buffer nominal (mkState wide_pattern_session []))
     = Raise (RuntimeError MsgVerificationFailed).
Proof.
  split; [reflexivity|].
  apply (verify_buffer_wide_pattern_fails nominal
           (mkState wide_pattern_session []) 7340032).
  - reflexivity.
  - right. reflexivity.
  - reflexivity.
  - reflexivity.
Defined.

(** ** The demo

    No step of [run_demo] before [cleanup] starts or releases anything. *)
Section Working.

Variable E : Env.

Lemma setup_buffers_working : respects any_session working (setup_buffers E).
Proof.
  unfold setup_buffers, size_t_call, cuMemsetD8_of_c_ubyte, _check_cufile,
    call_, int_.
  respects_auto.
Qed.

Lemma open_file_working (filepath : string) (flags mode : Z) :
  respects any_session working (open_file E filepath flags mode).
Proof. unfold open_file, _check_cufile, int_. respects_auto. Qed.

Lemma write_buffer_working (fo dv : Z) :
  respects any_session working (write_buffer E fo dv).
Proof. unfold write_buffer, transfer_result, int_. respects_auto. Qed.

Lemma read_buffer_working (fo dv : Z) :
  respects any_session working (read_buffer E fo dv).
Proof. unfold read_buffer, transfer_result, int_. respects_auto. Qed.

Lemma verify_buffer_working : respects any_session working (verify_buffer E).
Proof.
  unfold verify_buffer, size_t_call, from_address, _check_cuda, int_.
  respects_auto.
  intros s Hs. split; [exact Hs|]. exists []. cbn. rewrite app_nil_r. auto.
Qed.

Lemma run_demo_transfers_working :
  respects any_session working (run_demo_transfers E).
Proof.
  unfold run_demo_transfers.
  apply respects_bind; [apply write_buffer_working | intros w].
  apply respects_bind; [unfold call_; respects_auto | intros _].
  apply respects_bind; [apply read_buffer_working | intros r].
  apply respects_bind; [unfold call_; respects_auto | intros _].
  apply respects_bind; [apply verify_buffer_working | intros ok].
  unfold when, call_. respects_auto.
Qed.

End Working.

(** [run_demo] is its steps followed by [cleanup]. *)
Lemma run_demo_decomposes (E : Env) (filepath : string) (s : State) :
  exists r o l,
    run_demo E filepath s
    = (r, mkState o (trace s ++ l
                     ++ snd (cleanup_outcome E (mkState o (trace s ++ l)))))
    /\ forallb working l = true.
Proof.
  unfold run_demo, try_finally.
  match goal with
  | |- context [match ?body s with _ => _ end] =>
      assert (Hb : respects any_session working body)
  end.
  { apply respects_bind; [apply setup_buffers_working | intros _].
    apply respects_bind; [apply open_file_working | intros _].
    apply run_demo_transfers_working. }
  destruct (Hb s Logic.I) as (_ & l & Ht & Hl).
  match goal with
  | |- context [match ?body s with _ => _ end] => destruct (body s) as [r s1]
  end.
  cbn in Ht. rewrite cleanup_runs. destruct s1 as [o1 t1]. cbn in Ht. subst t1.
  cbn [self trace].
  destruct (fst (cleanup_outcome E _)) as [[]|e];
    eexists _, o1, l; rewrite <- app_assoc; auto.
Qed.

Lemma count_calls_app (f : Call -> bool) (a b : list Call) :
  count_calls f (a ++ b) = (count_calls f a + count_calls f b)%nat.
Proof. unfold count_calls. rewrite filter_app, length_app. reflexivity. Qed.

Lemma working_calls_leave_the_driver (l : list Call) :
  forallb working l = true ->
  count_calls is_driver_open l = 0%nat /\ count_calls is_driver_close l = 0%nat.
Proof.
  unfold count_calls. induction l as [|c l IH]; cbn; [auto|].
  intros H. apply andb_true_iff in H. destruct H as [Hc Hl].
  destruct (IH Hl) as [IHo IHc].
  destruct c; cbn in *; try discriminate Hc; auto.
Qed.

Lemma cleanup_calls_close_once (o : PYGDS) :
  count_calls is_driver_open (cleanup_calls o) = 0%nat
  /\ count_calls is_driver_close (cleanup_calls o) = 1%nat
  /\ last (cleanup_calls o) (cuInit 0) = cuFileDriverClose.
Proof.
  unfold cleanup_calls, handle_release, buffer_release.
  split; [|split]; split_attrs; reflexivity.
Qed.

Lemma cleanup_cut_short_leaves_the_driver (o : PYGDS) (d : Z) :
  count_calls is_driver_open (cleanup_calls_until_close o d) = 0%nat
  /\ count_calls is_driver_close (cleanup_calls_until_close o d) = 0%nat.
Proof.
  unfold cleanup_calls_until_close, handle_release.
  split; split_attrs; reflexivity.
Qed.

Lemma last_app_nonempty (a b : list Call) (d : Call) :
  b <> [] -> last (a ++ b) d = last b d.
Proof.
  intros Hb. induction a as [|x a IH]; [reflexivity|].
  cbn. destruct (a ++ b) eqn:Hab; [|exact IH].
  apply app_eq_nil in Hab. destruct Hab as [_ Hab]. contradiction.
Qed.

(** X16.  Whatever the world answers and whichever step raises, [run_demo]
    ends with [cleanup] on the session as the steps left it.  The steps
    before make no release call, so the driver is closed at most once in
    the run; when the close of the descriptor does not raise, [cleanup]
    makes all its calls, the driver is closed exactly once, and that is the
    last call of the run. *)
Theorem run_demo_always_cleans_up (E : Env) (filepath : string) (s : State) :
  exists r o l,
    let s1 := mkState o (trace s ++ l) in
    let l2 := snd (cleanup_outcome E s1) in
    run_demo E filepath s = (r, mkState o (trace s ++ l ++ l2))
    /\ forallb working l = true
    /\ (count_calls is_driver_close (l ++ l2) <= 1)%nat
    /\ (closes_quietly E s1 ->
        l2 = cleanup_calls o
        /\ count_calls is_driver_close (l ++ l2) = 1%nat
        /\ last (l ++ l2) (cuInit 0) = cuFileDriverClose).
Proof.
  destruct (run_demo_decomposes E filepath s) as (r & o & l & Hrun & Hl).
  exists r, o, l. cbn zeta. split; [exact Hrun|]. split; [exact Hl|].
  destruct (cleanup_calls_close_once o) as (_ & Hc & Hlast).
  destruct (working_calls_leave_the_driver l Hl) as [_ Hlc].
  assert (Hfull : count_calls is_driver_close (l ++ cleanup_calls o) = 1%nat
                  /\ last (l ++ cleanup_calls o) (cuInit 0) = cuFileDriverClose).
  { split.
    - rewrite count_calls_app, Hlc, Hc. reflexivity.
    - rewrite last_app_nonempty; [exact Hlast|].
      intros Hnil. rewrite Hnil in Hc. discriminate Hc. }
  unfold cleanup_outcome, closes_quietly. cbn [self].
  destruct (fd o) as [d|] eqn:Hd.
  - destruct (close_answer E _ d) as [errno|] eqn:Hq; cbn [snd].
    + split.
      * rewrite count_calls_app, Hlc.
        rewrite (proj2 (cleanup_cut_short_leaves_the_driver o d)). lia.
      * intros H. specialize (H d eq_refl). congruence.
    + split; [rewrite (proj1 Hfull); lia|]. intros _. split; [reflexivity|exact Hfull].
  - cbn [snd]. split; [rewrite (proj1 Hfull); lia|].
    intros _. split; [reflexivity|exact Hfull].
Qed.

Lemma run_demo_always_cleans_up_witness :
  count_calls is_driver_close
    (trace (snd (run_demo nominal "test_gds.bin" (mkState fresh [])))) = 1%nat
  /\ last (trace (snd (run_demo nominal "test_gds.bin" (mkState fresh []))))
          (cuInit 0) = cuFileDriverClose.
Proof.
  destruct (run_demo_always_cleans_up nominal "test_gds.bin" (mkState fresh []))
    as (r & o & l & Hrun & _ & _ & Hq).
  assert (Ho : self (snd (run_demo nominal "test_gds.bin" (mkState fresh []))) = o)
    by (rewrite Hrun; reflexivity).
  vm_compute in Ho.
  assert (Hclose : closes_quietly nominal (mkState o (trace (mkState fresh []) ++ l)))
    by (intros d Hd; rewrite <- Ho in Hd; discriminate Hd).
  destruct (Hq Hclose) as (_ & Hc & Hl).
  rewrite Hrun. cbn [snd trace app]. split; [exact Hc | exact Hl].
Defined.

(** [setup_buffers] raises and [cleanup] runs: that is all of [run_demo]. *)
Lemma run_demo_runs (E : Env) (filepath : string) (s : State) :
  run_demo E filepath s
  = (match fst (cleanup_outcome E (setup_buffers_stops E s)) with
     | Ok _ => Raise (if buffer_size (self s) <? 0 then OverflowError else TypeError)
     | Raise e => Raise e
     end,
     cleaned_up E (setup_buffers_stops E s)).
Proof.
  unfold run_demo, try_finally, bind, cleaned_up.
  rewrite setup_buffers_raises, cleanup_runs.
  destruct (fst (cleanup_outcome E _)) as [[]|e]; reflexivity.
Qed.






(** ** The program *)

(** What the program does once the constructor has returned: the session
    holds nothing, so [run_demo] allocates, raises at the fill call, and
    [cleanup] runs to its end on the two buffers. *)
Lemma main_runs (E : Env) (s : State)
    (Hok : fst (__init__ E (4 * 1024) 171 (mkState blank (trace s))) = Ok tt) :
  let s0 := mkState (mkPYGDS 4096 171 true None None None None None None None)
              (trace s ++ constructor_calls
                            (device_answer E (mkState blank (trace s)))) in
  let o := set_dptr_r (read_pointer E s0) (set_dptr_w (write_pointer E s0) (self s0)) in
  main E s
  = (Raise TypeError,
     mkState o
       (trace s
        ++ constructor_calls (device_answer E (mkState blank (trace s)))
        ++ [cuMemAlloc 4096; cuMemAlloc 4096;
            cuMemsetD8 (write_pointer E s0) 171 4096]
        ++ cleanup_calls o)).
Proof.
  intros s0 o. unfold main. revert Hok. rewrite init_closed_form.
  destruct (cuInit_answer E _ =? 0); [|discriminate].
  destruct (load_answer E _) as [errno|]; [discriminate|].
  destruct (err (driver_open_answer E _) =? 0); [|discriminate].
  intros _. cbn [self trace]. change (4 * 1024) with 4096. fold s0.
  rewrite run_demo_runs. unfold cleaned_up, cleanup_outcome.
  unfold setup_buffers_stops. cbn [self s0 buffer_size Z.ltb Z.compare].
  unfold buffers_allocated. cbn [self trace fd set_dptr_r set_dptr_w s0 fst snd
    buffer_size pattern_byte].
  fold s0. fold o. rewrite <- !app_assoc. reflexivity.
Qed.

(** X19.  When the constructor raises, the program stops there with that
    exception: [run_demo] and [cleanup] never run, and nothing that the
    constructor acquired is released. *)
Theorem main_stops_when_constructor_raises (E : Env) (s : State)
    (Hfail : fst (__init__ E (4 * 1024) 171 (mkState blank (trace s))) <> Ok tt) :
  main E s = __init__ E (4 * 1024) 171 (mkState blank (trace s))
  /\ exists k,
       (k = 1 \/ k = 4 \/ k = 5)%nat
       /\ trace (snd (main E s))
          = trace s ++ firstn k (constructor_calls
                                   (device_answer E (mkState blank (trace s))))
       /\ forallb not_release
            (firstn k (constructor_calls
                         (device_answer E (mkState blank (trace s))))) = true.
Proof.
  unfold main. revert Hfail. rewrite init_closed_form.
  destruct (cuInit_answer E _ =? 0).
  - destruct (load_answer E _) as [errno|].
    + intros _. split; [reflexivity|]. exists 4%nat. cbn. auto.
    + destruct (err (driver_open_answer E _) =? 0).
      * cbn. intros H. contradiction.
      * intros _. split; [reflexivity|]. exists 5%nat. cbn. auto.
  - intros _. split; [reflexivity|]. exists 1%nat. cbn. auto.
Qed.

Lemma main_stops_when_constructor_raises_witness :
  main driver_refused (mkState blank [])
  = (Raise (RuntimeError (MsgCuFile "cuFileDriverOpen" 5001 0)),
     mkState (mkPYGDS 4096 171 true (Some 0) (Some 1000) None None None None None)
             [cuInit 0; cuDeviceGet 0; cuCtxCreate 0 (Some 0);
              CDLL "libcufile.so"; cuFileDriverOpen]).
Proof.
  rewrite (proj1 (main_stops_when_constructor_raises driver_refused
                    (mkState blank []) ltac:(vm_compute; discriminate))).
  vm_compute. reflexivity.
Defined.

(** X20.  When the constructor returns normally, the program makes the
    five startup calls, then the steps of the demo, which start and release
    nothing, then the calls of [cleanup]: in the whole run the driver is
    opened exactly once and closed exactly once. *)
Theorem main_opens_and_closes_driver_once (E : Env) (s : State)
    (Hok : fst (__init__ E (4 * 1024) 171 (mkState blank (trace s))) = Ok tt) :
  exists r o l,
    main E s
    = (r, mkState o (trace s
                     ++ constructor_calls (device_answer E (mkState blank (trace s)))
                     ++ l ++ cleanup_calls o))
    /\ forallb working l = true
    /\ count_calls is_driver_open
         (constructor_calls (device_answer E (mkState blank (trace s)))
          ++ l ++ cleanup_calls o) = 1%nat
    /\ count_calls is_driver_close
         (constructor_calls (device_answer E (mkState blank (trace s)))
          ++ l ++ cleanup_calls o) = 1%nat.
Proof.
  pose proof (main_runs E s Hok) as Hmain. cbn zeta in Hmain.
  eexists _, _, _. split; [exact Hmain|]. split; [reflexivity|].
  match goal with
  | |- context [cleanup_calls ?o] =>
      destruct (cleanup_calls_close_once o) as (Ho & Hc & _)
  end.
  rewrite !count_calls_app, Ho, Hc. split; reflexivity.
Qed.

Lemma main_opens_and_closes_driver_once_witness :
  count_calls is_driver_open (trace (snd (main short_write (mkState blank [])))) = 1%nat
  /\ count_calls is_driver_close (trace (snd (main short_write (mkState blank [])))) = 1%nat.
Proof.
  destruct (main_opens_and_closes_driver_once short_write (mkState blank [])
              ltac:(vm_compute; reflexivity))
    as (r & o & l & Hmain & _ & Hopen & Hclose).
  rewrite Hmain. cbn [snd trace app]. split; [exact Hopen | exact Hclose].
Defined.

(** X21.  When the constructor returns normally, the program ends with
    [TypeError]: after the five startup calls it allocates the two
    buffers, the call that should fill the write buffer raises, and
    [cleanup] deregisters and frees what the two allocations gave and
    closes the driver.  The file is never opened, nothing is transferred
    or verified, no line is printed, and the context that the constructor
    created is not destroyed. *)
Theorem main_raises_TypeError (E : Env) (s : State)
    (Hok : fst (__init__ E (4 * 1024) 171 (mkState blank (trace s))) = Ok tt) :
  let d := device_answer E (mkState blank (trace s)) in
  let s0 := mkState (mkPYGDS 4096 171 true None None None None None None None)
                    (trace s ++ constructor_calls d) in
  let pw := write_pointer E s0 in
  let pr := read_pointer E s0 in
  main E s
  = (Raise TypeError,
     mkState (mkPYGDS 4096 171 true None None pw pr None None None)
       (trace s
        ++ constructor_calls d
        ++ [cuMemAlloc 4096; cuMemAlloc 4096; cuMemsetD8 pw 171 4096]
        ++ buffer_release pw ++ buffer_release pr ++ [cuFileDriverClose])).
Proof.
  intros d s0 pw pr. rewrite (main_runs E s Hok). reflexivity.
Qed.

Lemma main_raises_TypeError_witness :
  main nominal (mkState blank [])
  = (Raise TypeError,
     mkState (mkPYGDS 4096 171 true None None (Some 393216) (Some 458752)
                      None None None)
             [cuInit 0; cuDeviceGet 0; cuCtxCreate 0 (Some 0);
              CDLL "libcufile.so"; cuFileDriverOpen;
              cuMemAlloc 4096; cuMemAlloc 4096;
              cuMemsetD8 (Some 393216) 171 4096;
              cuFileBufDeregister 393216; cuMemFree (Some 393216);
              cuFileBufDeregister 458752; cuMemFree (Some 458752);
              cuFileDriverClose]).
Proof.
  rewrite (main_raises_TypeError nominal (mkState blank [])
             ltac:(vm_compute; reflexivity)).
  vm_compute. reflexivity.
Defined.
